(** * AdaptLearningBE, exams application: views and serializers

    A shallow embedding of [src/exams/views.py] and
    [src/exams/serializers.py].  The relational store is an explicit
    value of type [DB] passed to every view and returned by it; an
    exception raised by a view is the [Raise] outcome, a [Response]
    object returned by it is a [Return] outcome. *)

From Stdlib Require Import ZArith QArith.
From stdpp Require Import base decidable option list gmap strings pretty.

Local Open Scope Z_scope.
Local Open Scope string_scope.

(** ** exams/models.py, courses/models.py: the rows the views read

    Primary and foreign keys are integers; a nullable column is an
    [option]. *)

Record User := {
  user_id : Z;
  user_type : string;            (* 'teacher', 'student', ... *)
}.

(** [request.user]: either Django's [AnonymousUser] (not authenticated,
    no [user_type]) or a row of the project's user model. *)
Inductive RequestUser :=
| AnonymousUser
| AuthUser (u : User).

Record Course := {
  course_id : Z;
  instructor : Z;                (* FK to the user model *)
  students : list Z;             (* M2M to the user model: enrolled ids *)
}.

(** Modelled from the spec: the [Exam] model declaration (exams/models.py
    is absent); the columns are those of section 3 and of
    [ExamCreateSerializer.Meta.fields]. *)
Record Exam := {
  exam_id : Z;
  title : string;
  description : string;
  duration : Z;
  total_marks : Z;
  passing_marks : Z;
  exam_start_time : Z;
  exam_end_time : Z;
  is_published : bool;
  course : Z;                    (* FK to Course *)
}.

Record Question := {
  question_id : Z;
  question_exam : Z;             (* FK to Exam, related_name 'questions' *)
  question_text : string;
  question_type : string;
  marks : Z;
  order : Z;
}.

Record Choice := {
  choice_id : Z;
  choice_question : Z;           (* FK to Question, related_name 'choices' *)
  choice_text : string;
  is_correct : bool;
}.

(** Modelled from the spec: the [ExamAttempt] model declaration.  The
    columns are those [ExamAttemptSerializer] lists, plus [submitted_at],
    the completion marker [StaffExamAnalyticsView.get] filters on. *)
Record ExamAttempt := {
  attempt_id : Z;
  exam : Z;                      (* FK to Exam *)
  student : Z;                   (* FK to the user model *)
  start_time : Z;
  end_time : option Z;
  score : option Z;
  is_completed : bool;
  submitted_at : option Z;
}.

(** One item of [ExamSubmissionSerializer.answers]
    ([AnswerSerializer.Meta.fields]); [question] is the primary key
    submitted for the item's question. *)
Record Answer := {
  question : Z;
  answer_text : string;
}.

Record DB := {
  courses : list Course;
  exams : list Exam;
  questions : list Question;
  choices : list Choice;
  attempts : list ExamAttempt;
}.

(** ** Outcomes of a view *)

Inductive Exception :=
| PermissionDenied (detail : string)      (* rendered as HTTP 403 *)
| ValidationError (detail : string)       (* rendered as HTTP 400 *)
| Http404
| DoesNotExist (model : string)
| NotImplementedError (msg : string)
| AttributeError (msg : string)
| ValueError (msg : string)
| TypeError (msg : string).

Inductive Outcome (A : Type) :=
| Return (a : A)
| Raise (e : Exception).
Arguments Return {A} a.
Arguments Raise {A} e.

(** A view body: reads the store, may change it, returns or raises. *)
Definition View (A : Type) : Type := DB → Outcome A * DB.

Definition raise {A} (e : Exception) : View A := λ db, (Raise e, db).
Definition query {A} (f : DB → A) : View A := λ db, (Return (f db), db).

#[global] Instance view_ret : MRet View := λ A a db, (Return a, db).
#[global] Instance view_bind : MBind View := λ A B k m db,
  match m db with
  | (Return a, db') => k a db'
  | (Raise e, db') => (Raise e, db')
  end.

(** [raise permissions.PermissionDenied(detail)].  [permissions] is the
    module [rest_framework.permissions], which defines the permission
    classes and no [PermissionDenied]; the exception class is
    [rest_framework.exceptions.PermissionDenied], which views.py imports
    by name on line 4 and raises as [PermissionDenied(...)] in
    [ExamCreateView] and [StaffExamCreateView].  Looking the attribute
    up on the module fails before an exception object is built. *)
Definition raise_permissions_PermissionDenied {A} (detail : string) : View A :=
  raise (AttributeError
           "module 'rest_framework.permissions' has no attribute 'PermissionDenied'").

(** ** HTTP responses *)

Definition HTTP_201_CREATED : Z := 201.
Definition HTTP_400_BAD_REQUEST : Z := 400.
Definition HTTP_403_FORBIDDEN : Z := 403.

Inductive Body :=
| Detail (detail : string)
| Submission (score_ : option Z) (totalQuestions : nat)
             (passingScore : Z) (attemptId : Z)
| Analytics (total_attempts completed_attempts : nat)
            (average_score passing_rate : Q).

Record Response := {
  status : Z;
  data : Body;
}.

(** ** Manager and queryset operations *)

(** [Model.objects.get(id=pk)] on a table keyed by [key]. *)
Definition objects_get {R} (key : R → Z) (table : list R) (pk : Z) : option R :=
  List.find (λ r, bool_decide (key r = pk)) table.

Definition get_or_raise {R} (model : string) (key : R → Z)
    (table : DB → list R) (pk : Z) : View R :=
  λ db, match objects_get key (table db) pk with
        | Some r => (Return r, db)
        | None => (Raise (DoesNotExist model), db)
        end.

(** [get_object_or_404(Model, pk=pk)]. *)
Definition get_object_or_404 {R} (key : R → Z) (table : DB → list R)
    (pk : Z) : View R :=
  λ db, match objects_get key (table db) pk with
        | Some r => (Return r, db)
        | None => (Raise Http404, db)
        end.

(** [exam.questions.all()]: the reverse side of [Question.exam]. *)
Definition exam_questions_all (db : DB) (e : Z) : list Question :=
  filter (λ q, question_exam q = e) (questions db).

(** [question.choices.all()]. *)
Definition question_choices_all (db : DB) (q : Z) : list Choice :=
  filter (λ c, choice_question c = q) (choices db).

(** [Exam.objects.filter(course__instructor=user)]. *)
Definition course__instructor (db : DB) (uid : Z) (e : Exam) : Prop :=
  ∃ c, objects_get course_id (courses db) (course e) = Some c ∧ instructor c = uid.

(** [Exam.objects.filter(course__students=user)]. *)
Definition course__students (db : DB) (uid : Z) (e : Exam) : Prop :=
  ∃ c, objects_get course_id (courses db) (course e) = Some c ∧ uid ∈ students c.

#[global] Instance course__instructor_dec db uid e : Decision (course__instructor db uid e).
Proof.
  unfold course__instructor.
  destruct (objects_get course_id (courses db) (course e)) as [c|].
  - destruct (decide (instructor c = uid)) as [H|H].
    + left. by exists c.
    + right. intros (c' & [= <-] & ?). done.
  - right. by intros (c' & [=] & ?).
Defined.

#[global] Instance course__students_dec db uid e : Decision (course__students db uid e).
Proof.
  unfold course__students.
  destruct (objects_get course_id (courses db) (course e)) as [c|].
  - destruct (decide (uid ∈ students c)) as [H|H].
    + left. by exists c.
    + right. intros (c' & [= <-] & ?). done.
  - right. by intros (c' & [=] & ?).
Defined.

(** ** serializers.py: ExamSubmissionSerializer *)

Module ExamSubmissionSerializer.

(** [validate(self, data)], with [self.context['attempt']] passed as
    [attempt].  The two [set(...)] comprehensions are finite sets of
    primary keys. *)
Definition validate (attempt : ExamAttempt) (data : list Answer)
    : View (list Answer) :=
  exam_questions_rows ← query (λ db, exam_questions_all db (exam attempt));
  let answered_questions : gset Z := list_to_set (question <$> data) in
  let exam_questions : gset Z := list_to_set (question_id <$> exam_questions_rows) in
  if bool_decide (answered_questions ≠ exam_questions)
  then raise (ValidationError "All questions must be answered.")
  else mret data.

(** The class derives from [serializers.Serializer] and defines
    neither [create] nor [save]: the inherited
    [BaseSerializer.create] is the one that runs. *)
Definition create (validated_data : list Answer) : View unit :=
  raise (NotImplementedError "`create()` must be implemented.").

(** [BaseSerializer.save()] for a serializer built without an
    instance. *)
Definition save (validated_data : list Answer) : View unit :=
  create validated_data.

End ExamSubmissionSerializer.

(** ** serializers.py: AnswerSerializer, nested in the submission *)

(** The double quote character. *)
Definition dquote : string := String (Ascii.ascii_of_nat 34) EmptyString.

(** The message of the [question] field, a [PrimaryKeyRelatedField] on
    [Question.objects.all()], for a key that is not stored. *)
Definition invalid_pk_message (pk : Z) : string :=
  "Invalid pk " ++ dquote ++ pretty pk ++ dquote ++ " - object does not exist.".

Definition unknown_question (db : DB) (a : Answer) : Prop :=
  objects_get question_id (questions db) (question a) = None.

#[global] Instance unknown_question_dec db a : Decision (unknown_question db a).
Proof.
  unfold unknown_question.
  destruct (objects_get question_id (questions db) (question a));
    [right; discriminate | by left].
Defined.

(** The keys the [question] field refuses, in item order. *)
Definition refused_questions (db : DB) (data : list Answer) : list Z :=
  question <$> filter (unknown_question db) data.

(** The detail of the [ValidationError] the nested serializer raises:
    it holds one message per refused item; the embedding keeps the
    messages in item order, separated by a space. *)
Definition invalid_pk_detail (pks : list Z) : string :=
  String.concat " " (invalid_pk_message <$> pks).

(** ** views.py: ExamSubmissionView *)

Module ExamSubmissionView.

(** [get_serializer_context]: looks the attempt up again. *)
Definition get_serializer_context (pk : Z) : View ExamAttempt :=
  get_or_raise "ExamAttempt" attempt_id attempts pk.

(** [self.get_serializer(data=request.data)] and
    [serializer.is_valid(raise_exception=True)]: each item goes through
    [AnswerSerializer] first, whose [question] field refuses a key that
    is not a stored question; only a payload without refused items
    reaches [validate].  The [answer_text] values are taken as accepted
    by their field, which is built from the [Answer] model. *)
Definition is_valid (pk : Z) (data : list Answer) : View (list Answer) :=
  attempt ← get_serializer_context pk;
  refused ← query (λ db, refused_questions db data);
  match refused with
  | [] => ExamSubmissionSerializer.validate attempt data
  | _ => raise (ValidationError (invalid_pk_detail refused))
  end.

(** [CreateAPIView.perform_create], not overridden by the view. *)
Definition perform_create (validated_data : list Answer) : View unit :=
  ExamSubmissionSerializer.save validated_data.

Definition create (user : User) (pk : Z) (data : list Answer)
    : View Response :=
  attempt ← get_or_raise "ExamAttempt" attempt_id attempts pk;
  if bool_decide (student attempt ≠ user_id user) then
    mret {| status := HTTP_403_FORBIDDEN;
            data := Detail "You can only submit your own exam attempts." |}
  else if is_completed attempt then
    mret {| status := HTTP_400_BAD_REQUEST;
            data := Detail "This exam attempt has already been completed." |}
  else
    validated_data ← is_valid pk data;
    perform_create validated_data;;
    (* attempt.refresh_from_db() *)
    attempt ← get_or_raise "ExamAttempt" attempt_id attempts (attempt_id attempt);
    attempt_exam ← get_or_raise "Exam" exam_id exams (exam attempt);
    total ← query (λ db, length (exam_questions_all db (exam attempt)));
    mret {| status := HTTP_201_CREATED;
            data := Submission (score attempt) total
                      (passing_marks attempt_exam) (attempt_id attempt) |}.

End ExamSubmissionView.

(** ** views.py: starting an attempt *)

(** The key an auto-incremented primary key column gives the next row. *)
Definition next_id {R} (key : R → Z) (table : list R) : Z :=
  1 + foldr (λ r acc, Z.max (key r) acc) 0 table.

(** Modelled from the spec: the defaults of the [ExamAttempt] model (its
    declaration is absent), which [serializer.save(student=..., exam=...)]
    relies on.  Section 4.1: the new attempt is in progress, with
    [start_time = now] and [score = null]. *)
Definition ExamAttempt_objects_create (now : Z) (student_ exam_ : Z)
    (end_time_ : option Z) : View ExamAttempt :=
  λ db,
    let attempt := {| attempt_id := next_id attempt_id (attempts db);
                      exam := exam_;
                      student := student_;
                      start_time := now;
                      end_time := end_time_;
                      score := None;
                      is_completed := false;
                      submitted_at := None |} in
    (Return attempt,
     {| courses := courses db; exams := exams db; questions := questions db;
        choices := choices db; attempts := attempts db ++ [attempt] |}).

(** [course.students.filter(id=user.id).exists()]. *)
Definition students_filter_exists (c : Course) (uid : Z) : bool :=
  bool_decide (filter (λ s, s = uid) (students c) ≠ []).

Module ExamAttemptView.

(** [perform_create(self, serializer)]: [pk] is [self.kwargs['pk']];
    [end_time_] is the only client-writable field of
    [ExamAttemptSerializer] ([student], [score], [is_completed] are
    read-only, [exam] and [answers] are declared read-only). *)
Definition perform_create (now : Z) (user : User) (pk : Z)
    (end_time_ : option Z) : View ExamAttempt :=
  exam_ ← get_or_raise "Exam" exam_id exams pk;
  exam_course ← get_or_raise "Course" course_id courses (course exam_);
  if students_filter_exists exam_course (user_id user) then
    ExamAttempt_objects_create now (user_id user) (exam_id exam_) end_time_
  else
    raise_permissions_PermissionDenied "You are not enrolled in this course.".

End ExamAttemptView.

(** ** views.py: creating exams *)

(** The writable fields common to [ExamCreateSerializer] and
    [StaffExamCreateSerializer]. *)
Record ExamFields := {
  f_title : string;
  f_description : string;
  f_duration : Z;
  f_total_marks : Z;
  f_passing_marks : Z;
  f_start_time : Z;
  f_end_time : Z;
  f_is_published : bool;
}.

(** [serializer.save(...)] of a [ModelSerializer] on [Exam]: inserts one
    row for course [course_]. *)
Definition Exam_objects_create (fields : ExamFields) (course_ : Z) : View Exam :=
  λ db,
    let e := {| exam_id := next_id exam_id (exams db);
                title := f_title fields;
                description := f_description fields;
                duration := f_duration fields;
                total_marks := f_total_marks fields;
                passing_marks := f_passing_marks fields;
                exam_start_time := f_start_time fields;
                exam_end_time := f_end_time fields;
                is_published := f_is_published fields;
                course := course_ |} in
    (Return e,
     {| courses := courses db; exams := exams db ++ [e];
        questions := questions db; choices := choices db;
        attempts := attempts db |}).

Module ExamListView.

(** [get_queryset]: [swagger_fake_view] is the attribute the schema
    generator sets; an [AuthUser] is authenticated and has the
    [user_type] attribute. *)
Definition get_queryset (swagger_fake_view : bool) (user : RequestUser)
    (db : DB) : list Exam :=
  if swagger_fake_view then []
  else
    match user with
    | AnonymousUser => []
    | AuthUser u =>
        if bool_decide (user_type u = "teacher") then
          filter (course__instructor db (user_id u)) (exams db)
        else if bool_decide (user_type u = "student") then
          (* Only exams for courses the student is enrolled in *)
          filter (course__students db (user_id u)) (exams db)
        else []
    end.

(** [perform_create]: [course_] is [serializer.validated_data['course']]. *)
Definition perform_create (user : User) (fields : ExamFields) (course_ : Z)
    : View Exam :=
  c ← get_or_raise "Course" course_id courses course_;
  if bool_decide (instructor c ≠ user_id user) then
    raise_permissions_PermissionDenied "Only the course instructor can create exams."
  else
    Exam_objects_create fields course_.

End ExamListView.

Module ExamDetailView.

Definition get_queryset (swagger_fake_view : bool) (user : User)
    (db : DB) : list Exam :=
  if swagger_fake_view then []
  else if bool_decide (user_type user = "teacher") then
    filter (course__instructor db (user_id user)) (exams db)
  else if bool_decide (user_type user = "student") then
    filter (course__students db (user_id user)) (exams db)
  else [].

End ExamDetailView.

Module ExamCreateView.

(** [perform_create]: [course_id_] is [self.kwargs['course_id']]. *)
Definition perform_create (user : User) (fields : ExamFields) (course_id_ : Z)
    : View Exam :=
  if bool_decide (user_type user ≠ "teacher") then
    raise (PermissionDenied "Only teachers can create exams.")
  else
    Exam_objects_create fields course_id_.

End ExamCreateView.

(** What the view observes of [self.request.data.get('course')], which
    may be any value of the request body: whether it is false in a
    condition, and what the key field of [Course] makes of it in
    [Course.objects.get(pk=course_id)]. *)
Inductive CourseParam :=
| Falsy                        (* absent, None, 0, '', False, an empty container *)
| Key (k : Z)                  (* a true value that the key field converts to [k] *)
| NotAKey (raised : Exception). (* a true value it cannot convert: the lookup
                                  raises [raised], a ValueError or a TypeError *)

Module StaffExamCreateView.

(** [perform_create]: the [try] catches [Course.DoesNotExist] only. *)
Definition perform_create (user : User) (fields : ExamFields)
    (request_course : CourseParam) : View Exam :=
  if bool_decide (user_type user ≠ "teacher") then
    raise (PermissionDenied "Only teachers can create exams.")
  else
    match request_course with
    | Falsy => raise (PermissionDenied "Course ID is required.")
    | NotAKey raised => raise raised
    | Key course_id_ =>
        λ db,
          match objects_get course_id (courses db) course_id_ with
          | None => (Raise (PermissionDenied "Course not found."), db)
          | Some c =>
              if bool_decide (instructor c ≠ user_id user) then
                (Raise (PermissionDenied
                          "You can only create exams for your own courses."), db)
              else Exam_objects_create fields (course_id c) db
          end
    end.

End StaffExamCreateView.

(** ** views.py: StaffExamAnalyticsView *)

Module StaffExamAnalyticsView.

(** [ExamAttempt.objects.filter(exam=exam)]. *)
Definition attempts_of (db : DB) (e : Exam) : list ExamAttempt :=
  filter (λ a, exam a = exam_id e) (attempts db).

(** [.filter(submitted_at__isnull=False)]. *)
Definition submitted (l : list ExamAttempt) : list ExamAttempt :=
  filter (λ a, submitted_at a ≠ None) l.

(** [.filter(score__gte=m)]: a null score matches no comparison. *)
Definition score__gte (m : Z) (a : ExamAttempt) : Prop :=
  match score a with
  | Some s => (m ≤ s)%Z
  | None => False
  end.

#[global] Instance score__gte_dec m a : Decision (score__gte m a).
Proof. unfold score__gte. destruct (score a); apply _. Defined.

Definition score_gte (m : Z) (l : list ExamAttempt) : list ExamAttempt :=
  filter (score__gte m) l.

(** [.aggregate(avg_score=Avg('score'))['avg_score']]: the mean of the
    non-null scores, [None] when there is none. *)
Definition Avg_score (l : list ExamAttempt) : option Q :=
  let scores : list Z := omap score l in
  let total : Z := foldr Z.add 0 scores in
  let n : Z := Z.of_nat (length scores) in
  match scores with
  | [] => None
  | _ => Some (inject_Z total / inject_Z n)%Q
  end.

(** Python's [x or 0] on an optional number. *)
Definition or_0 (x : option Q) : Q :=
  match x with
  | None => 0%Q
  | Some q => if Qeq_bool q 0 then 0%Q else q
  end.

Definition passing_rate_of (attempts_ : list ExamAttempt) (e : Exam)
    (completed_attempts : nat) : Q :=
  if bool_decide (0 < completed_attempts)%nat then
    (inject_Z (Z.of_nat (length (score_gte (passing_marks e) attempts_)))
     / inject_Z (Z.of_nat completed_attempts) * 100)%Q
  else 0%Q.

Definition get (user : User) (pk : Z) : View Response :=
  exam_ ← get_object_or_404 exam_id exams pk;
  if bool_decide (user_type user ≠ "teacher") then
    mret {| status := HTTP_403_FORBIDDEN; data := Detail "Not authorized" |}
  else
    exam_course ← get_or_raise "Course" course_id courses (course exam_);
    if bool_decide (instructor exam_course ≠ user_id user) then
      mret {| status := HTTP_403_FORBIDDEN; data := Detail "Not authorized" |}
    else
      attempts_ ← query (λ db, attempts_of db exam_);
      let total_attempts := length attempts_ in
      let completed_attempts := length (submitted attempts_) in
      let average_score := or_0 (Avg_score (submitted attempts_)) in
      mret {| status := 200;
              data := Analytics total_attempts completed_attempts average_score
                        (passing_rate_of attempts_ exam_ completed_attempts) |}.

End StaffExamAnalyticsView.

(** ** serializers.py: the read serializers *)

(** The native value a serializer's [.data] holds. *)
#[local] Unset Elimination Schemes.
Inductive Native :=
| NNull
| NBool (b : bool)
| NInt (z : Z)
| NStr (s : string)
| NList (items : list Native)
| NDict (fields : list (string * Native)).
#[local] Set Elimination Schemes.

(** [d[k]] on a serialized object. *)
Definition dict_get (k : string) (v : Native) : option Native :=
  match v with
  | NDict fields => snd <$> List.find (λ kv, bool_decide (kv.1 = k)) fields
  | _ => None
  end.

(** [fields = ('id', 'choice_text', 'is_correct')]. *)
Definition ChoiceSerializer (c : Choice) : Native :=
  NDict [("id", NInt (choice_id c));
         ("choice_text", NStr (choice_text c));
         ("is_correct", NBool (is_correct c))].

(** [fields = ('id', 'question_text', 'question_type', 'marks', 'order',
    'choices')], [choices = ChoiceSerializer(many=True, read_only=True)]. *)
Definition QuestionSerializer (db : DB) (q : Question) : Native :=
  NDict [("id", NInt (question_id q));
         ("question_text", NStr (question_text q));
         ("question_type", NStr (question_type q));
         ("marks", NInt (marks q));
         ("order", NInt (order q));
         ("choices", NList (ChoiceSerializer <$> question_choices_all db (question_id q)))].

Section ExamViews.

(** [courses.serializers.CourseSerializer] belongs to another
    application. *)
Variable CourseSerializer : Course → Native.

(** [fields = '__all__'] with [course] and [questions] declared. *)
Definition ExamSerializer (db : DB) (e : Exam) : Native :=
  NDict [("id", NInt (exam_id e));
         ("title", NStr (title e));
         ("description", NStr (description e));
         ("duration", NInt (duration e));
         ("total_marks", NInt (total_marks e));
         ("passing_marks", NInt (passing_marks e));
         ("start_time", NInt (exam_start_time e));
         ("end_time", NInt (exam_end_time e));
         ("is_published", NBool (is_published e));
         ("course", match objects_get course_id (courses db) (course e) with
                    | Some c => CourseSerializer c
                    | None => NNull
                    end);
         ("questions", NList (QuestionSerializer db <$> exam_questions_all db (exam_id e)))].

(** [ListCreateAPIView.list] on a GET request:
    [ExamSerializer(queryset, many=True).data]. *)
Definition ExamListView_list (user : RequestUser) : View (list Native) :=
  query (λ db, ExamSerializer db <$> ExamListView.get_queryset false user db).

(** [RetrieveUpdateDestroyAPIView.retrieve]: [get_object] takes the
    row with this [pk] out of the queryset or raises [Http404]. *)
Definition ExamDetailView_retrieve (user : User) (pk : Z) : View Native :=
  λ db, match objects_get exam_id (ExamDetailView.get_queryset false user db) pk with
        | Some e => (Return (ExamSerializer db e), db)
        | None => (Raise Http404, db)
        end.

End ExamViews.

(** ** The specification's vocabulary *)

(** Section 4.4: [canManageExam(user, exam) = user.role == teacher AND
    exam.course.instructor == user], on the course the exam belongs to. *)
Definition canManageExam (user : User) (c : Course) : Prop :=
  user_type user = "teacher" ∧ instructor c = user_id user.

(** Section 4.3, in the specification's words: the passing rate counts,
    among the completed attempts, those at or above the threshold. *)
Definition passing_rate_spec (attempts_ : list ExamAttempt) (e : Exam) : Q :=
  let completed := StaffExamAnalyticsView.submitted attempts_ in
  let passed := StaffExamAnalyticsView.score_gte (passing_marks e) completed in
  match completed with
  | [] => 0%Q
  | _ => (inject_Z (Z.of_nat (length passed))
          / inject_Z (Z.of_nat (length completed)) * 100)%Q
  end.

(** The submitted and the expected sets of question ids, as [validate]
    builds them. *)
Definition answered_questions (payload : list Answer) : gset Z :=
  list_to_set (question <$> payload).
Definition exam_questions (db : DB) (attempt : ExamAttempt) : gset Z :=
  list_to_set (question_id <$> exam_questions_all db (exam attempt)).

(** An error message lists an id when the id's decimal numeral occurs in
    it. *)
Definition mentions (msg : string) (id : Z) : bool :=
  bool_decide (is_Some (String.index 0 (pretty id) msg)).

Definition lists_ids (msg : string) (ids : gset Z) : Prop :=
  ∀ id, id ∈ ids → mentions msg id = true.

(** A serialized exam exposes the correctness flag of a choice when one
    of its [questions] holds, among its [choices], an object with the
    choice's [id] and its [is_correct] value. *)
Definition exposes_is_correct (serialized_exam : Native) (ch : Choice) : Prop :=
  ∃ qs jq cs jc,
    dict_get "questions" serialized_exam = Some (NList qs) ∧ jq ∈ qs
    ∧ dict_get "choices" jq = Some (NList cs) ∧ jc ∈ cs
    ∧ dict_get "id" jc = Some (NInt (choice_id ch))
    ∧ dict_get "is_correct" jc = Some (NBool (is_correct ch)).

(** ** A small school, used by the examples *)

Module School.

Definition teacher1 : User := {| user_id := 10; user_type := "teacher" |}.
Definition teacher2 : User := {| user_id := 11; user_type := "teacher" |}.
Definition alice : User := {| user_id := 20; user_type := "student" |}.
Definition bob : User := {| user_id := 21; user_type := "student" |}.

Definition algebra : Course :=
  {| course_id := 1; instructor := 10; students := [20] |}.

Definition midterm : Exam :=
  {| exam_id := 1; title := "Midterm"; description := "Chapters 1-3";
     duration := 60; total_marks := 15; passing_marks := 10;
     exam_start_time := 0; exam_end_time := 1000; is_published := true;
     course := 1 |}.

Definition q1 : Question :=
  {| question_id := 1; question_exam := 1; question_text := "2 + 2";
     question_type := "single"; marks := 5; order := 1 |}.
Definition q2 : Question :=
  {| question_id := 2; question_exam := 1; question_text := "3 * 3";
     question_type := "single"; marks := 10; order := 2 |}.

Definition c11 : Choice :=
  {| choice_id := 1; choice_question := 1; choice_text := "4"; is_correct := true |}.
Definition c12 : Choice :=
  {| choice_id := 2; choice_question := 1; choice_text := "5"; is_correct := false |}.
Definition c21 : Choice :=
  {| choice_id := 3; choice_question := 2; choice_text := "6"; is_correct := false |}.
Definition c22 : Choice :=
  {| choice_id := 4; choice_question := 2; choice_text := "9"; is_correct := true |}.

(** An attempt as [ExamAttemptView] leaves it. *)
Definition started (id student_ : Z) : ExamAttempt :=
  {| attempt_id := id; exam := 1; student := student_; start_time := 100;
     end_time := None; score := None; is_completed := false;
     submitted_at := None |}.

(** An attempt row with a score and a completion marker. *)
Definition scored (id student_ s : Z) (at_ : option Z) : ExamAttempt :=
  {| attempt_id := id; exam := 1; student := student_; start_time := 100;
     end_time := at_; score := Some s; is_completed := bool_decide (at_ ≠ None);
     submitted_at := at_ |}.

Definition with_attempts (l : list ExamAttempt) : DB :=
  {| courses := [algebra]; exams := [midterm]; questions := [q1; q2];
     choices := [c11; c12; c21; c22]; attempts := l |}.

(** Alice has started the midterm. *)
Definition db0 : DB := with_attempts [started 1 20].

Definition ans (q : Z) (t : string) : Answer :=
  {| question := q; answer_text := t |}.

Definition fields0 : ExamFields :=
  {| f_title := "Quiz"; f_description := ""; f_duration := 10;
     f_total_marks := 10; f_passing_marks := 5; f_start_time := 0;
     f_end_time := 10; f_is_published := false |}.

End School.

(** ** views.py: the remaining exam and attempt views *)

(** [GenericAPIView.get_object] for the views below is
    [get_object_or_404] on the view's queryset with the [pk] of the
    URL, so it is written [get_object_or_404 key get_queryset pk]. *)

Module ExamUpdateView.

Definition get_queryset (user : User) (db : DB) : list Exam :=
  filter (course__instructor db (user_id user)) (exams db).

Definition get_object (user : User) (pk : Z) : View Exam :=
  get_object_or_404 exam_id (get_queryset user) pk.

End ExamUpdateView.

Module ExamDeleteView.

Definition get_queryset (user : User) (db : DB) : list Exam :=
  filter (course__instructor db (user_id user)) (exams db).

Definition get_object (user : User) (pk : Z) : View Exam :=
  get_object_or_404 exam_id (get_queryset user) pk.

End ExamDeleteView.

Module ExamAttemptDetailView.

(** [ExamAttempt.objects.filter(student=self.request.user)]. *)
Definition get_queryset (user : User) (db : DB) : list ExamAttempt :=
  filter (λ a, student a = user_id user) (attempts db).

Definition get_object (user : User) (pk : Z) : View ExamAttempt :=
  get_object_or_404 attempt_id (get_queryset user) pk.

End ExamAttemptDetailView.

Module StaffExamListView.

(** [get_queryset] returns a [Response] object, not a queryset, to a
    user who is not a teacher. *)
Definition get_queryset (user : User) (db : DB) : Response + list Exam :=
  if bool_decide (user_type user ≠ "teacher") then
    inl {| status := HTTP_403_FORBIDDEN; data := Detail "Not authorized" |}
  else
    inr (filter (course__instructor db (user_id user)) (exams db)).

End StaffExamListView.

(** The body [StaffExamDetailView], [StaffExamUpdateView] and
    [StaffExamDeleteView] each give to [get_object]: the denial is a
    [Response] that is returned, not an exception. *)
Definition Staff_get_object (user : User) (pk : Z) : View (Response + Exam) :=
  exam_ ← get_object_or_404 exam_id exams pk;
  if bool_decide (user_type user ≠ "teacher") then
    mret (inl {| status := HTTP_403_FORBIDDEN; data := Detail "Not authorized" |})
  else
    exam_course ← get_or_raise "Course" course_id courses (course exam_);
    if bool_decide (instructor exam_course ≠ user_id user) then
      mret (inl {| status := HTTP_403_FORBIDDEN; data := Detail "Not authorized" |})
    else
      mret (inr exam_).

Module StaffExamDetailView.
Definition get_object := Staff_get_object.
End StaffExamDetailView.

Module StaffExamUpdateView.
Definition get_object := Staff_get_object.
End StaffExamUpdateView.

Module StaffExamDeleteView.
Definition get_object := Staff_get_object.
End StaffExamDeleteView.

(** ** serializers.py: QuestionCreateSerializer *)

(** The entries of [validated_data] other than ['choices']; an absent
    key is [None]. *)
Record QuestionData := {
  qd_question_text : option string;
  qd_question_type : option string;
  qd_marks : option Z;
  qd_order : option Z;
}.

(** The values of one item of ['choices']; an absent key is [None]. *)
Record ChoiceFields := {
  cf_choice_text : option string;
  cf_is_correct : option bool;
}.

(** One item of ['choices'] as [update] reads it: [cd_id] is
    [c.get('id')] when the item carries a key of the choices table (a
    positive integer, hence true in a condition), [None] when the item
    has no ['id'] or a null one. *)
Record ChoiceData := {
  cd_id : option positive;
  cd_fields : ChoiceFields;
}.

(** The column defaults of the [Question] and [Choice] models, whose
    declarations are in exams/models.py. *)
Record QuestionDefaults := {
  dflt_question_text : string;
  dflt_question_type : string;
  dflt_marks : Z;
  dflt_order : Z;
}.

Record ChoiceDefaults := {
  dflt_choice_text : string;
  dflt_is_correct : bool;
}.

Definition with_questions (db : DB) (l : list Question) : DB :=
  {| courses := courses db; exams := exams db; questions := l;
     choices := choices db; attempts := attempts db |}.

Definition with_choices (db : DB) (l : list Choice) : DB :=
  {| courses := courses db; exams := exams db; questions := questions db;
     choices := l; attempts := attempts db |}.

(** [instance.save()] on a row with a key: the row with this key is
    updated, and inserted when there is none. *)
Definition save_row {R} (key : R → Z) (r : R) (table : list R) : list R :=
  match objects_get key table (key r) with
  | Some _ => (λ x, if bool_decide (key x = key r) then r else x) <$> table
  | None => table ++ [r]
  end.

(** [instance.delete()]: deletes by primary key. *)
Definition delete_row {R} (key : R → Z) (r : R) (table : list R) : list R :=
  filter (λ x, key x ≠ key r) table.

(** [for x in l: body(x)]. *)
Definition for_each {A} (l : list A) (body : A → View unit) : View unit :=
  foldr (λ x rest, body x;; rest) (mret ()) l.

(** [Choice.objects.get(id=choice_id, question=instance)]. *)
Definition Choice_objects_get (choice_id_ question_ : Z) : View Choice :=
  λ db, match List.find (λ c, bool_decide (choice_id c = choice_id_
                                          ∧ choice_question c = question_))
                (choices db) with
        | Some c => (Return c, db)
        | None => (Raise (DoesNotExist "Choice"), db)
        end.

(** The two methods [QuestionDetailView] updates on: a PUT is a full
    update, a PATCH a partial one. *)
Inductive Method := PUT | PATCH.

(** An item of ['choices'] as it comes out of the nested
    [ChoiceSerializer]: [id] is the model's automatic key, read-only in
    a [ModelSerializer], so no item carries one. *)
Definition validated_choice (cf : ChoiceFields) : ChoiceData :=
  {| cd_id := None; cd_fields := cf |}.

Definition validated_choices (choices_data : option (list ChoiceFields))
    : option (list ChoiceData) :=
  match choices_data with
  | Some items => Some (validated_choice <$> items)
  | None => None
  end.

Section QuestionWrites.

Variable Question_defaults : QuestionDefaults.
Variable Choice_defaults : ChoiceDefaults.

(** [Question.objects.create] on [validated_data], to which
    [serializer.save(exam=exam)] has added the exam. *)
Definition Question_objects_create (exam_ : Z) (d : QuestionData) : View Question :=
  λ db,
    let q := {| question_id := next_id question_id (questions db);
                question_exam := exam_;
                question_text := default (dflt_question_text Question_defaults)
                                         (qd_question_text d);
                question_type := default (dflt_question_type Question_defaults)
                                         (qd_question_type d);
                marks := default (dflt_marks Question_defaults) (qd_marks d);
                order := default (dflt_order Question_defaults) (qd_order d) |} in
    (Return q, with_questions db (questions db ++ [q])).

(** [Choice.objects.create(question=question, **choice_data)] for an
    item without a key. *)
Definition Choice_objects_create (question_ : Z) (cf : ChoiceFields) : View Choice :=
  λ db,
    let c := {| choice_id := next_id choice_id (choices db);
                choice_question := question_;
                choice_text := default (dflt_choice_text Choice_defaults)
                                       (cf_choice_text cf);
                is_correct := default (dflt_is_correct Choice_defaults)
                                      (cf_is_correct cf) |} in
    (Return c, with_choices db (choices db ++ [c])).

(** [QuestionCreateSerializer.create].  The items of ['choices'] are
    what the nested [ChoiceSerializer] validates: its [id] is the
    model's automatic key, which a [ModelSerializer] declares read-only,
    so an item holds [choice_text] and [is_correct] only. *)
Definition QuestionCreateSerializer_create (exam_ : Z) (d : QuestionData)
    (choices_data : list ChoiceFields) : View Question :=
  question_ ← Question_objects_create exam_ d;
  for_each choices_data
    (λ choice_data, Choice_objects_create (question_id question_) choice_data;; mret ());;
  mret question_.

(** [for attr, value in validated_data.items(): setattr(instance, attr, value)]. *)
Definition setattrs (instance : Question) (d : QuestionData) : Question :=
  {| question_id := question_id instance;
     question_exam := question_exam instance;
     question_text := default (question_text instance) (qd_question_text d);
     question_type := default (question_type instance) (qd_question_type d);
     marks := default (marks instance) (qd_marks d);
     order := default (order instance) (qd_order d) |}.

Definition Question_save (q : Question) : View unit :=
  λ db, (Return (), with_questions db (save_row question_id q (questions db))).

Definition Choice_save (c : Choice) : View unit :=
  λ db, (Return (), with_choices db (save_row choice_id c (choices db))).

Definition Choice_delete (c : Choice) : View unit :=
  λ db, (Return (), with_choices db (delete_row choice_id c (choices db))).

(** The keys the items of ['choices'] carry. *)
Definition existing_ids_of (choices_data : list ChoiceData) : list Z :=
  Z.pos <$> omap cd_id choices_data.

(** The body of the second loop of [update]. *)
Definition update_or_create (instance : Question) (choice_data : ChoiceData)
    : View unit :=
  match cd_id choice_data with
  | Some choice_id_ =>
      (* Update existing choice *)
      choice ← Choice_objects_get (Z.pos choice_id_) (question_id instance);
      Choice_save
        {| choice_id := choice_id choice;
           choice_question := choice_question choice;
           choice_text := default (choice_text choice)
                                  (cf_choice_text (cd_fields choice_data));
           is_correct := default (is_correct choice)
                                 (cf_is_correct (cd_fields choice_data)) |}
  | None =>
      (* Create new choice *)
      Choice_objects_create (question_id instance) (cd_fields choice_data);;
      mret ()
  end.

(** [QuestionCreateSerializer.update]: [choices_data] is
    [validated_data.pop('choices', None)]. *)
Definition QuestionCreateSerializer_update (instance : Question) (d : QuestionData)
    (choices_data : option (list ChoiceData)) : View Question :=
  let instance := setattrs instance d in
  Question_save instance;;
  match choices_data with
  | None => mret instance
  | Some choices_data =>
      (* Remove choices not present in the update *)
      let existing_ids := existing_ids_of choices_data in
      instance_choices ← query (λ db, question_choices_all db (question_id instance));
      for_each instance_choices
        (λ choice, if bool_decide (choice_id choice ∉ existing_ids)
                   then Choice_delete choice else mret ());;
      (* Update or create choices *)
      for_each choices_data (update_or_create instance);;
      mret instance
  end.

(** ** views.py: the question views *)

(** [self.kwargs.get('pk') or self.kwargs.get('exam_id')]. *)
Definition kwargs_pk_or_exam_id (pk exam_id_ : option Z) : option Z :=
  match pk with
  | Some 0 | None => exam_id_
  | Some k => Some k
  end.

(** [QuestionListView.get_queryset]: [Question.objects.filter(exam_id=exam_id)];
    the column is not nullable, so a null [exam_id] matches no row. *)
Definition QuestionListView_get_queryset (swagger_fake_view : bool)
    (pk exam_id_ : option Z) (db : DB) : list Question :=
  if swagger_fake_view then []
  else match kwargs_pk_or_exam_id pk exam_id_ with
       | Some e => filter (λ q, question_exam q = e) (questions db)
       | None => []
       end.

(** [ListCreateAPIView.list] on a GET request:
    [QuestionSerializer(queryset, many=True).data]. *)
Definition QuestionListView_list (pk exam_id_ : option Z) : View (list Native) :=
  query (λ db, QuestionSerializer db <$> QuestionListView_get_queryset false pk exam_id_ db).

(** [QuestionListView.perform_create]; [Exam.objects.get(id=None)]
    finds no row. *)
Definition QuestionListView_perform_create (user : User) (pk exam_id_ : option Z)
    (d : QuestionData) (choices_data : list ChoiceFields) : View Question :=
  exam_ ← match kwargs_pk_or_exam_id pk exam_id_ with
          | Some e => get_or_raise "Exam" exam_id exams e
          | None => raise (DoesNotExist "Exam")
          end;
  exam_course ← get_or_raise "Course" course_id courses (course exam_);
  if bool_decide (instructor exam_course ≠ user_id user) then
    raise_permissions_PermissionDenied "Only the course instructor can add questions."
  else
    QuestionCreateSerializer_create (exam_id exam_) d choices_data.

(** What the fields that [QuestionCreateSerializer] and the nested
    [ChoiceSerializer] build from the [Question] and [Choice] models
    (declared in exams/models.py) say of the values of a request: [None]
    when they accept them, the detail of the [ValidationError]
    otherwise. *)
Variable field_errors : Method → QuestionData → option (list ChoiceFields) → option string.

(** [QuestionDetailView] on PUT and PATCH: [queryset = Question.objects.all()]
    and no test on the user; [serializer.is_valid(raise_exception=True)],
    where ['choices'] is declared on the serializer and so required by a
    PUT; then [serializer.save()] on the instance, which is [update]. *)
Definition QuestionDetailView_update (method : Method) (user : User) (pk : Z)
    (d : QuestionData) (choices_data : option (list ChoiceFields)) : View Question :=
  instance ← get_object_or_404 question_id questions pk;
  match method, choices_data with
  | PUT, None => raise (ValidationError "This field is required.")
  | _, _ =>
      match field_errors method d choices_data with
      | Some detail => raise (ValidationError detail)
      | None =>
          QuestionCreateSerializer_update instance d
            (validated_choices choices_data)
      end
  end.

End QuestionWrites.

(** The stored choice that an item without a key becomes: a choice of
    question [q] with the item's values, or the column defaults. *)
Definition created_from (Cd : ChoiceDefaults) (q : Z) (c : Choice)
    (cf : ChoiceFields) : Prop :=
  choice_question c = q
  ∧ choice_text c = default (dflt_choice_text Cd) (cf_choice_text cf)
  ∧ is_correct c = default (dflt_is_correct Cd) (cf_is_correct cf).

(** The choices that belong to other questions than [q], and the
    condition that none of them shares a key with a choice of [q]. *)
Definition other_choices (q : Z) (table : list Choice) : list Choice :=
  filter (λ r, choice_question r ≠ q) table.

Definition keys_separate (q : Z) (table : list Choice) : Prop :=
  ∀ r r', r ∈ table → r' ∈ table →
          choice_question r = q → choice_question r' ≠ q →
          choice_id r ≠ choice_id r'.

(** Question [q] has a stored choice with key [k]. *)
Definition has_choice (q : Z) (table : list Choice) (k : Z) : Prop :=
  ∃ r, r ∈ table ∧ choice_question r = q ∧ choice_id r = k.

(** * Properties *)

Import School.

(** Unfolds the plumbing of [View] so that a view reads as nested
    matches on the store. *)
Ltac view_unfold :=
  unfold mbind, mret, view_bind, view_ret, raise_permissions_PermissionDenied,
    raise, query,
    get_or_raise, get_object_or_404 in *.

(** ** Submitting an attempt *)

Section Submission.

Variables (db : DB) (user : User) (pk : Z) (payload : list Answer).
Variable attempt : ExamAttempt.
Hypothesis Hget : objects_get attempt_id (attempts db) pk = Some attempt.

Lemma validate_eq :
  answered_questions payload = exam_questions db attempt →
  ExamSubmissionSerializer.validate attempt payload db = (Return payload, db).
Proof.
  unfold answered_questions, exam_questions. intros Heq.
  unfold ExamSubmissionSerializer.validate. view_unfold.
  rewrite bool_decide_false; [reflexivity | by intros []].
Qed.

Lemma validate_ne :
  answered_questions payload ≠ exam_questions db attempt →
  ExamSubmissionSerializer.validate attempt payload db
  = (Raise (ValidationError "All questions must be answered."), db).
Proof.
  unfold answered_questions, exam_questions. intros Hne.
  unfold ExamSubmissionSerializer.validate. view_unfold.
  by rewrite bool_decide_true.
Qed.

Lemma create_not_owner :
  student attempt ≠ user_id user →
  ExamSubmissionView.create user pk payload db
  = (Return {| status := HTTP_403_FORBIDDEN;
               data := Detail "You can only submit your own exam attempts." |},
     db).
Proof using Hget.
  intros Hne. unfold ExamSubmissionView.create. view_unfold.
  rewrite Hget. by rewrite bool_decide_true.
Qed.

Lemma create_completed :
  student attempt = user_id user →
  is_completed attempt = true →
  ExamSubmissionView.create user pk payload db
  = (Return {| status := HTTP_400_BAD_REQUEST;
               data := Detail "This exam attempt has already been completed." |},
     db).
Proof using Hget.
  intros Heq Hc. unfold ExamSubmissionView.create. view_unfold.
  rewrite Hget, bool_decide_false by (by intros []). by rewrite Hc.
Qed.

(** A payload with a key that is not a stored question is refused by
    the nested serializer, before [validate] runs. *)
Lemma create_refused :
  student attempt = user_id user →
  is_completed attempt = false →
  refused_questions db payload ≠ [] →
  ExamSubmissionView.create user pk payload db
  = (Raise (ValidationError (invalid_pk_detail (refused_questions db payload))), db).
Proof using Hget.
  intros Heq Hc Hr. unfold ExamSubmissionView.create. view_unfold.
  rewrite Hget, bool_decide_false by (by intros []). rewrite Hc.
  unfold ExamSubmissionView.is_valid, ExamSubmissionView.get_serializer_context.
  view_unfold. rewrite Hget.
  by destruct (refused_questions db payload).
Qed.

Lemma create_invalid :
  student attempt = user_id user →
  is_completed attempt = false →
  refused_questions db payload = [] →
  answered_questions payload ≠ exam_questions db attempt →
  ExamSubmissionView.create user pk payload db
  = (Raise (ValidationError "All questions must be answered."), db).
Proof using Hget.
  intros Heq Hc Hr Hne. unfold ExamSubmissionView.create. view_unfold.
  rewrite Hget, bool_decide_false by (by intros []). rewrite Hc.
  unfold ExamSubmissionView.is_valid, ExamSubmissionView.get_serializer_context.
  view_unfold. rewrite Hget, Hr.
  pose proof (validate_ne Hne) as Hv. view_unfold. by rewrite Hv.
Qed.

(** With a complete set of answers the view reaches
    [perform_create], and the serializer has no [create]. *)
Lemma create_valid :
  student attempt = user_id user →
  is_completed attempt = false →
  refused_questions db payload = [] →
  answered_questions payload = exam_questions db attempt →
  ExamSubmissionView.create user pk payload db
  = (Raise (NotImplementedError "`create()` must be implemented."), db).
Proof using Hget.
  intros Heq Hc Hr Hs. unfold ExamSubmissionView.create. view_unfold.
  rewrite Hget, bool_decide_false by (by intros []). rewrite Hc.
  unfold ExamSubmissionView.is_valid, ExamSubmissionView.get_serializer_context.
  view_unfold. rewrite Hget, Hr.
  pose proof (validate_eq Hs) as Hv. view_unfold. by rewrite Hv.
Qed.

End Submission.

(** No call of the submission view changes the store. *)
Lemma create_keeps_db user pk data db :
  (ExamSubmissionView.create user pk data db).2 = db.
Proof.
  destruct (objects_get attempt_id (attempts db) pk) as [a|] eqn:Hget.
  - destruct (decide (student a = user_id user)) as [Ho|Ho].
    + destruct (is_completed a) eqn:Hc.
      * by rewrite (create_completed _ _ _ data _ Hget Ho Hc).
      * destruct (decide (refused_questions db data = [])) as [Hr|Hr];
          [|by rewrite (create_refused _ _ _ _ _ Hget Ho Hc Hr)].
        destruct (decide (answered_questions data = exam_questions db a)) as [Hs|Hs].
        -- by rewrite (create_valid _ _ _ _ _ Hget Ho Hc Hr Hs).
        -- by rewrite (create_invalid _ _ _ _ _ Hget Ho Hc Hr Hs).
    + by rewrite (create_not_owner _ _ _ data _ Hget Ho).
  - unfold ExamSubmissionView.create. view_unfold. by rewrite Hget.
Qed.

(** No call of the submission view answers [201 Created]. *)
Lemma create_never_created user pk data db r :
  (ExamSubmissionView.create user pk data db).1 = Return r →
  status r ≠ HTTP_201_CREATED.
Proof.
  destruct (objects_get attempt_id (attempts db) pk) as [a|] eqn:Hget.
  - destruct (decide (student a = user_id user)) as [Ho|Ho].
    + destruct (is_completed a) eqn:Hc.
      * rewrite (create_completed _ _ _ data _ Hget Ho Hc). by intros [= <-].
      * destruct (decide (refused_questions db data = [])) as [Hr|Hr];
          [|by rewrite (create_refused _ _ _ _ _ Hget Ho Hc Hr)].
        destruct (decide (answered_questions data = exam_questions db a)) as [Hs|Hs].
        -- by rewrite (create_valid _ _ _ _ _ Hget Ho Hc Hr Hs).
        -- by rewrite (create_invalid _ _ _ _ _ Hget Ho Hc Hr Hs).
    + rewrite (create_not_owner _ _ _ data _ Hget Ho). by intros [= <-].
  - unfold ExamSubmissionView.create. view_unfold. by rewrite Hget.
Qed.

(** C1 (the code departs from the claim).  Alice owns attempt 1 of the
    midterm, which is in progress, and submits an answer to each of its
    two questions, twice.  The first call does not succeed: it raises
    [NotImplementedError] out of [serializer.save()].  The attempt is
    still in progress and unscored afterwards, so the second call is not
    refused with "already been completed" either: it raises the same
    exception, and the store is the one before the first call. *)
Theorem submit_twice_never_completes :
  let answers := [ans 1 "4"; ans 2 "9"] in
  let first := ExamSubmissionView.create alice 1 answers db0 in
  let second := ExamSubmissionView.create alice 1 answers first.2 in
  first.1 = Raise (NotImplementedError "`create()` must be implemented.")
  ∧ second.1 = Raise (NotImplementedError "`create()` must be implemented.")
  ∧ second.2 = db0
  ∧ (is_completed <$> objects_get attempt_id (attempts second.2) 1) = Some false
  ∧ (score <$> objects_get attempt_id (attempts second.2) 1) = Some None.
Proof. vm_compute. by repeat split. Qed.

(** C7.  Whatever the answers, a submission by a user who is not the
    student of the attempt is answered 403 "You can only submit your own
    exam attempts.", and the store is left as it was. *)
Theorem submit_by_other_user_forbidden
    (db : DB) (user : User) (pk : Z) (payload : list Answer) (attempt : ExamAttempt) :
  objects_get attempt_id (attempts db) pk = Some attempt →
  student attempt ≠ user_id user →
  ExamSubmissionView.create user pk payload db
  = (Return {| status := HTTP_403_FORBIDDEN;
               data := Detail "You can only submit your own exam attempts." |},
     db).
Proof. intros Hget Hne. by apply create_not_owner with (attempt := attempt). Qed.

Lemma submit_by_other_user_forbidden_witness :
  objects_get attempt_id (attempts db0) 1 = Some (started 1 20)
  ∧ student (started 1 20) ≠ user_id bob
  ∧ ExamSubmissionView.create bob 1 [ans 1 "4"; ans 2 "9"] db0
    = (Return {| status := HTTP_403_FORBIDDEN;
                 data := Detail "You can only submit your own exam attempts." |},
       db0).
Proof.
  split; [reflexivity|]. split; [by vm_compute|].
  apply (submit_by_other_user_forbidden db0 bob 1 _ (started 1 20));
    [reflexivity | by vm_compute].
Defined.

Lemma refused_questions_nil (db : DB) (payload : list Answer) :
  refused_questions db payload = []
  ↔ ∀ a, a ∈ payload → is_Some (objects_get question_id (questions db) (question a)).
Proof.
  unfold refused_questions. split.
  - intros Hnil a Ha. apply fmap_nil_inv in Hnil.
    destruct (objects_get question_id (questions db) (question a)) eqn:Hg; [by eexists|].
    exfalso. by apply (filter_nil_not_elem_of _ _ a Hnil).
  - intros Hall. induction payload as [|a l IH]; [done|].
    rewrite filter_cons_False.
    + apply IH. intros x Hx. apply Hall. by right.
    + unfold unknown_question. destruct (Hall a) as [q Hq]; [left|]. by rewrite Hq.
Qed.

(** C3, as amended.  When the owner of an attempt in progress submits
    answers whose set of question ids is not the set of the exam's
    question ids, the view raises [ValidationError] and leaves the store
    as it was.  If every answered id is the key of a stored question the
    error is the fixed text "All questions must be answered.", which
    lists no id; otherwise the nested serializer has refused the payload
    first, with one "Invalid pk" message per answered id that is not a
    stored question. *)
Theorem submit_wrong_question_set_rejected
    (db : DB) (user : User) (pk : Z) (payload : list Answer) (attempt : ExamAttempt) :
  objects_get attempt_id (attempts db) pk = Some attempt →
  student attempt = user_id user →
  is_completed attempt = false →
  answered_questions payload ≠ exam_questions db attempt →
  ∃ detail,
    ExamSubmissionView.create user pk payload db = (Raise (ValidationError detail), db)
    ∧ ((∀ a, a ∈ payload →
             is_Some (objects_get question_id (questions db) (question a))) →
       detail = "All questions must be answered.")
    ∧ (refused_questions db payload ≠ [] →
       detail = invalid_pk_detail (refused_questions db payload)).
Proof.
  intros Hget Ho Hc Hne.
  destruct (decide (refused_questions db payload = [])) as [Hr|Hr].
  - exists "All questions must be answered.".
    split; [by apply create_invalid with (attempt := attempt)|]. by split.
  - exists (invalid_pk_detail (refused_questions db payload)).
    split; [by apply create_refused with (attempt := attempt)|]. split; [|done].
    intros Hall. by apply refused_questions_nil in Hall.
Qed.

Lemma submit_wrong_question_set_rejected_witness :
  let payload := [ans 2 "9"; ans 2 "x"] in
  objects_get attempt_id (attempts db0) 1 = Some (started 1 20)
  ∧ student (started 1 20) = user_id alice
  ∧ is_completed (started 1 20) = false
  ∧ answered_questions payload ≠ exam_questions db0 (started 1 20)
  ∧ ExamSubmissionView.create alice 1 payload db0
    = (Raise (ValidationError "All questions must be answered."), db0).
Proof.
  intros payload.
  assert (answered_questions payload ≠ exam_questions db0 (started 1 20))
    as Hne by (by vm_compute).
  split; [reflexivity|]. split; [reflexivity|]. split; [reflexivity|].
  split; [exact Hne|].
  destruct (submit_wrong_question_set_rejected db0 alice 1 payload (started 1 20)
              eq_refl eq_refl eq_refl Hne) as (detail & Hcreate & Hfixed & _).
  rewrite Hcreate. rewrite Hfixed; [reflexivity|].
  intros a Ha. unfold payload in Ha.
  repeat (apply elem_of_cons in Ha as [->|Ha]; [by eexists|]).
  by apply elem_of_nil in Ha.
Defined.

(** An answer to question 7, which is not stored: the nested serializer
    refuses it, and its message names the key. *)
Example submit_unknown_question_refused :
  ∃ detail,
    ExamSubmissionView.create alice 1 [ans 1 "4"; ans 7 "x"] db0
    = (Raise (ValidationError detail), db0)
    ∧ detail = invalid_pk_message 7
    ∧ mentions detail 7 = true.
Proof. eexists. split; [by vm_compute|]. by vm_compute. Qed.

(** C3, as the claim states it, fails: Alice answers question 1 only, so
    question 2 is missing; the error raised does not name question 2. *)
Lemma validation_error_omits_ids :
  let payload := [ans 1 "4"] in
  let missing := exam_questions db0 (started 1 20) ∖ answered_questions payload in
  let extra := answered_questions payload ∖ exam_questions db0 (started 1 20) in
  ∃ msg,
    ExamSubmissionView.create alice 1 payload db0 = (Raise (ValidationError msg), db0)
    ∧ 2 ∈ missing
    ∧ ¬ lists_ids msg (missing ∪ extra).
Proof.
  intros payload missing extra.
  assert (2 ∈ missing) as Hin by (apply (bool_decide_unpack _); by vm_compute).
  exists "All questions must be answered.". split; [by vm_compute|]. split; [done|].
  intros Hl. assert (mentions "All questions must be answered." 2 = true) as Hm
    by (apply Hl; set_solver).
  by vm_compute in Hm.
Qed.

(** C10.  [validate] compares the two sets of question ids: whenever
    they are equal the payload is returned as valid, however many
    entries it holds for one question. *)
Theorem validate_compares_sets
    (db : DB) (attempt : ExamAttempt) (payload : list Answer) :
  answered_questions payload = exam_questions db attempt →
  ExamSubmissionSerializer.validate attempt payload db = (Return payload, db).
Proof. apply validate_eq. Qed.

Lemma validate_compares_sets_witness :
  let payload := [ans 1 "4"; ans 1 "5"; ans 2 "9"; ans 1 "4"] in
  ¬ NoDup (question <$> payload)
  ∧ answered_questions payload = exam_questions db0 (started 1 20)
  ∧ ExamSubmissionSerializer.validate (started 1 20) payload db0 = (Return payload, db0).
Proof.
  intros payload.
  assert (answered_questions payload = exam_questions db0 (started 1 20))
    as Heq by (by vm_compute).
  split; [|split; [exact Heq|]].
  - intros Hnd. apply NoDup_cons in Hnd as [Hnot _]. apply Hnot. set_solver.
  - exact (validate_compares_sets db0 (started 1 20) payload Heq).
Defined.

(** ** Starting an attempt *)

Lemma students_filter_exists_spec (c : Course) (uid : Z) :
  students_filter_exists c uid = true ↔ uid ∈ students c.
Proof.
  unfold students_filter_exists. rewrite bool_decide_eq_true. split.
  - destruct (filter (λ s, s = uid) (students c)) as [|x l] eqn:Hf; [done|].
    intros _. assert (x ∈ filter (λ s, s = uid) (students c)) as Hx
      by (rewrite Hf; left).
    apply list_elem_of_filter in Hx as [-> Hx]. done.
  - intros Hin Hnil. exact (filter_nil_not_elem_of _ _ uid Hnil eq_refl Hin).
Qed.

Lemma students_filter_exists_false (c : Course) (uid : Z) :
  uid ∉ students c → students_filter_exists c uid = false.
Proof.
  intros Hnot. destruct (students_filter_exists c uid) eqn:He; [|done].
  by apply students_filter_exists_spec in He.
Qed.

(** What [ExamAttemptView.perform_create] does on an existing exam.  A
    user who is not among the students of the exam's course creates
    nothing; the exception is the failed attribute lookup.  A user who
    is gets a new attempt, appended to the table, that is not completed,
    has no score, starts now and belongs to this user and this exam. *)
Lemma start_attempt_enrollment
    (now : Z) (db : DB) (user : User) (pk : Z) (end_time_ : option Z)
    (e : Exam) (c : Course) :
  objects_get exam_id (exams db) pk = Some e →
  objects_get course_id (courses db) (course e) = Some c →
  (user_id user ∉ students c →
     ∃ msg, ExamAttemptView.perform_create now user pk end_time_ db
            = (Raise (AttributeError msg), db))
  ∧ (user_id user ∈ students c →
     ∃ a db',
       ExamAttemptView.perform_create now user pk end_time_ db = (Return a, db')
       ∧ attempts db' = (attempts db ++ [a])%list
       ∧ student a = user_id user ∧ exam a = exam_id e ∧ start_time a = now
       ∧ is_completed a = false ∧ score a = None).
Proof.
  intros He Hc. split; intros Hin.
  - unfold ExamAttemptView.perform_create. view_unfold. rewrite He, Hc.
    rewrite students_filter_exists_false by done. by eexists.
  - unfold ExamAttemptView.perform_create. view_unfold. rewrite He, Hc.
    apply students_filter_exists_spec in Hin. rewrite Hin.
    unfold ExamAttempt_objects_create. eexists _, _. by repeat split.
Qed.

(** Alice, enrolled in the algebra course, starts the midterm. *)
Example alice_starts_midterm :
  ∃ a db',
    ExamAttemptView.perform_create 7 alice 1 None db0 = (Return a, db')
    ∧ attempts db' = [started 1 20; a]
    ∧ attempt_id a = 2 ∧ student a = 20 ∧ exam a = 1 ∧ start_time a = 7
    ∧ is_completed a = false ∧ score a = None.
Proof. eexists _, _. by vm_compute. Qed.

(** C6 (the code departs from the claim).  Bob is not enrolled in the
    algebra course and starts the midterm.  Nothing is stored, but what
    leaves the view is [AttributeError], from looking [PermissionDenied]
    up on the [permissions] module, and not a [PermissionDenied]. *)
Theorem start_attempt_not_enrolled_attribute_error :
  (user_id bob ∉ students algebra)
  ∧ (∃ msg, ExamAttemptView.perform_create 7 bob 1 None db0
            = (Raise (AttributeError msg), db0))
  ∧ (∀ detail, fst (ExamAttemptView.perform_create 7 bob 1 None db0)
               ≠ Raise (PermissionDenied detail)).
Proof.
  split; [|split].
  - vm_compute. by intros ?%(list_elem_of_singleton (A := Z)).
  - eexists. by vm_compute.
  - intros detail. by vm_compute.
Qed.

(** ** Creating exams *)

Lemma ExamCreateView_teacher_creates user fields course_id_ db :
  user_type user = "teacher" →
  ∃ e db', ExamCreateView.perform_create user fields course_id_ db = (Return e, db')
           ∧ course e = course_id_ ∧ exams db' = (exams db ++ [e])%list.
Proof.
  intros Ht. unfold ExamCreateView.perform_create.
  rewrite bool_decide_false by (by intros []).
  unfold Exam_objects_create. by eexists _, _.
Qed.

Lemma objects_get_key {R} (key : R → Z) (table : list R) (pk : Z) (r : R) :
  objects_get key table pk = Some r → key r = pk ∧ r ∈ table.
Proof.
  unfold objects_get. intros Hf. apply find_some in Hf as [Hin Hk].
  apply bool_decide_eq_true in Hk. split; [done|]. by apply list_elem_of_In.
Qed.

(** The staff view creates an exam only for a teacher who is the
    instructor of the course. *)
Lemma StaffExamCreateView_checks_both user fields request_course db e db' :
  StaffExamCreateView.perform_create user fields request_course db = (Return e, db') →
  ∃ c, objects_get course_id (courses db) (course e) = Some c ∧ canManageExam user c.
Proof.
  unfold StaffExamCreateView.perform_create, canManageExam.
  case_bool_decide as Ht; [by view_unfold|].
  destruct request_course as [|k|raised]; try by view_unfold.
  destruct (objects_get course_id (courses db) k) as [c|] eqn:Hc; [|done].
  case_bool_decide as Hi; [done|].
  unfold Exam_objects_create; intros [= <- <-]; simpl.
  destruct (objects_get_key _ _ _ _ Hc) as [-> _].
  exists c; split; [done|]; split.
  - by destruct (decide (user_type user = "teacher")).
  - by destruct (decide (instructor c = user_id user)).
Qed.

(** [ExamListView.perform_create] asks for the instructor and not for the
    role: the instructor of the course creates the exam whatever the
    [user_type]. *)
Lemma ExamListView_create_instructor user fields course_ db c :
  objects_get course_id (courses db) course_ = Some c →
  instructor c = user_id user →
  ∃ e db', ExamListView.perform_create user fields course_ db = (Return e, db')
           ∧ course e = course_ ∧ exams db' = (exams db ++ [e])%list.
Proof.
  intros Hc Hi. unfold ExamListView.perform_create. view_unfold.
  rewrite Hc, bool_decide_false by (by intros []).
  unfold Exam_objects_create. by eexists _, _.
Qed.

(** C4 (the code departs from the claim).  [teacher2] is a teacher but
    not the instructor of the algebra course; [ExamCreateView] checks
    the role only, and creates the exam in that course. *)
Theorem teacher_creates_exam_in_foreign_course :
  objects_get course_id (courses db0) 1 = Some algebra
  ∧ ¬ canManageExam teacher2 algebra
  ∧ ∃ e db',
      ExamCreateView.perform_create teacher2 fields0 1 db0 = (Return e, db')
      ∧ course e = course_id algebra
      ∧ exams db' = (exams db0 ++ [e])%list.
Proof.
  split; [reflexivity|]. split.
  - by intros [_ Hi].
  - eexists _, _. by vm_compute.
Qed.

(** ** Analytics *)

Section Analytics.

Import StaffExamAnalyticsView.

Variables (db : DB) (user : User) (pk : Z) (e : Exam) (c : Course).
Hypothesis Hexam : objects_get exam_id (exams db) pk = Some e.
Hypothesis Hteacher : user_type user = "teacher".
Hypothesis Hcourse : objects_get course_id (courses db) (course e) = Some c.
Hypothesis Hinstructor : instructor c = user_id user.

(** What the view answers to the instructor of the exam's course. *)
Lemma get_authorized :
  get user pk db
  = (Return {| status := 200;
               data := Analytics
                         (length (attempts_of db e))
                         (length (submitted (attempts_of db e)))
                         (or_0 (Avg_score (submitted (attempts_of db e))))
                         (passing_rate_of (attempts_of db e) e
                            (length (submitted (attempts_of db e)))) |},
     db).
Proof using Hexam Hteacher Hcourse Hinstructor.
  unfold get. view_unfold. rewrite Hexam.
  rewrite bool_decide_false by (by intros []). rewrite Hcourse.
  by rewrite bool_decide_false by (by intros []).
Qed.

End Analytics.

(** Where every attempt that reaches the threshold also carries the
    completion marker, the view's rate is the specification's. *)
Lemma passing_rate_of_spec (l : list ExamAttempt) (e : Exam) :
  (∀ a, a ∈ l → StaffExamAnalyticsView.score__gte (passing_marks e) a →
        submitted_at a ≠ None) →
  StaffExamAnalyticsView.passing_rate_of l e
    (length (StaffExamAnalyticsView.submitted l))
  = passing_rate_spec l e.
Proof.
  intros Hall.
  assert (StaffExamAnalyticsView.score_gte (passing_marks e)
            (StaffExamAnalyticsView.submitted l)
          = StaffExamAnalyticsView.score_gte (passing_marks e) l) as Hsame.
  { unfold StaffExamAnalyticsView.score_gte, StaffExamAnalyticsView.submitted.
    induction l as [|a l IH]; [done|].
    assert (∀ a', a' ∈ l → StaffExamAnalyticsView.score__gte (passing_marks e) a' →
                  submitted_at a' ≠ None) as Hl
      by (intros a' Ha'; apply Hall; by right).
    specialize (IH Hl).
    destruct (decide (submitted_at a ≠ None)) as [Hs|Hs].
    - rewrite (filter_cons_True (λ a, submitted_at a ≠ None)) by done.
      rewrite !filter_cons, IH. done.
    - rewrite (filter_cons_False (λ a, submitted_at a ≠ None)) by done.
      rewrite IH, filter_cons_False; [done|].
      intros Hg. apply Hs, Hall; [left|done]. }
  unfold StaffExamAnalyticsView.passing_rate_of, passing_rate_spec.
  rewrite Hsame.
  destruct (StaffExamAnalyticsView.submitted l) as [|a l'] eqn:Hsub.
  - by rewrite bool_decide_false by (simpl; lia).
  - by rewrite bool_decide_true by (simpl; lia).
Qed.

(** Section 8's example: four completed attempts, three of them at or
    above the passing mark of 10. *)
Example passing_rate_three_of_four :
  let l := [scored 1 20 12 (Some 5); scored 2 21 10 (Some 6);
            scored 3 22 15 (Some 7); scored 4 23 3 (Some 8)] in
  ∃ avg rate,
    StaffExamAnalyticsView.get teacher1 1 (with_attempts l)
    = (Return {| status := 200; data := Analytics 4 4 avg rate |}, with_attempts l)
    ∧ (avg == 10)%Q ∧ (rate == 75)%Q.
Proof. eexists _, _. split; [by vm_compute|]. by vm_compute. Qed.

(** C2 (the code departs from the claim).  One attempt on the midterm is
    completed with 12 marks; another has 14 marks and no completion
    marker.  Both are counted in the numerator: the view reports a
    passing rate of 200, where the rate over completed attempts is 100. *)
Theorem passing_rate_counts_incomplete_attempts :
  let l := [scored 1 20 12 (Some 5); scored 2 21 14 None] in
  ∃ avg rate,
    StaffExamAnalyticsView.get teacher1 1 (with_attempts l)
    = (Return {| status := 200; data := Analytics 2 1 avg rate |}, with_attempts l)
    ∧ (rate == 200)%Q
    ∧ (passing_rate_spec (StaffExamAnalyticsView.attempts_of (with_attempts l) midterm)
         midterm == 100)%Q.
Proof. eexists _, _. split; [by vm_compute|]. by vm_compute. Qed.

(** C8.  For the instructor of the exam's course, when no attempt on the
    exam carries the completion marker (in particular when there is no
    attempt at all), the view answers with zero completed attempts, an
    average of 0 and a passing rate of 0. *)
Theorem analytics_without_completed_attempts
    (db : DB) (user : User) (pk : Z) (e : Exam) (c : Course) :
  objects_get exam_id (exams db) pk = Some e →
  user_type user = "teacher" →
  objects_get course_id (courses db) (course e) = Some c →
  instructor c = user_id user →
  length (StaffExamAnalyticsView.submitted (StaffExamAnalyticsView.attempts_of db e)) = 0%nat →
  StaffExamAnalyticsView.get user pk db
  = (Return {| status := 200;
               data := Analytics (length (StaffExamAnalyticsView.attempts_of db e))
                         0 0 0 |},
     db).
Proof.
  intros He Ht Hc Hi Hz. rewrite (get_authorized _ _ _ _ _ He Ht Hc Hi).
  apply nil_length_inv in Hz. by rewrite Hz.
Qed.

Lemma analytics_without_completed_attempts_witness :
  StaffExamAnalyticsView.get teacher1 1 (with_attempts [])
  = (Return {| status := 200; data := Analytics 0 0 0 0 |}, with_attempts [])
  ∧ StaffExamAnalyticsView.get teacher1 1 db0
    = (Return {| status := 200; data := Analytics 1 0 0 0 |}, db0).
Proof.
  split.
  - exact (analytics_without_completed_attempts (with_attempts []) teacher1 1
             midterm algebra eq_refl eq_refl eq_refl eq_refl eq_refl).
  - exact (analytics_without_completed_attempts db0 teacher1 1
             midterm algebra eq_refl eq_refl eq_refl eq_refl eq_refl).
Defined.

(** ** Reading exams *)

Lemma objects_get_filter {R} (key : R → Z) (P : R → Prop) `{∀ r, Decision (P r)}
    (table : list R) (pk : Z) (r : R) :
  objects_get key table pk = Some r → P r →
  objects_get key (filter P table) pk = Some r.
Proof.
  unfold objects_get. intros Hf HP.
  induction table as [|x l IH]; [done|]. simpl in Hf.
  destruct (bool_decide (key x = pk)) eqn:Hk.
  - injection Hf as ->. rewrite filter_cons_True by done. simpl. by rewrite Hk.
  - rewrite filter_cons. destruct (decide (P x)); simpl; [rewrite Hk|]; by apply IH.
Qed.

Section Reading.

Variable CourseSerializer : Course → Native.
Variables (db : DB) (u : User) (e : Exam) (c : Course).
Hypothesis Hstudent : user_type u = "student".
Hypothesis Hexam : objects_get exam_id (exams db) (exam_id e) = Some e.
Hypothesis Hcourse : objects_get course_id (courses db) (course e) = Some c.
Hypothesis Henrolled : user_id u ∈ students c.

Lemma list_queryset_student :
  ExamListView.get_queryset false (AuthUser u) db
  = filter (course__students db (user_id u)) (exams db).
Proof using Hstudent.
  unfold ExamListView.get_queryset. rewrite Hstudent.
  by rewrite bool_decide_false, bool_decide_true.
Qed.

Lemma detail_queryset_student :
  ExamDetailView.get_queryset false u db
  = filter (course__students db (user_id u)) (exams db).
Proof using Hstudent.
  unfold ExamDetailView.get_queryset. rewrite Hstudent.
  by rewrite bool_decide_false, bool_decide_true.
Qed.

(** The queryset [ExamDetailView] resolves every request through,
    PUT, PATCH and DELETE included, holds the exam for an enrolled
    student. *)
Lemma student_queryset_has_exam :
  e ∈ ExamListView.get_queryset false (AuthUser u) db
  ∧ e ∈ ExamDetailView.get_queryset false u db.
Proof using Hstudent Hexam Hcourse Henrolled.
  rewrite list_queryset_student, detail_queryset_student.
  assert (e ∈ filter (course__students db (user_id u)) (exams db)); [|done].
  apply list_elem_of_filter. split.
  - by exists c.
  - by apply objects_get_key in Hexam as [_ ?].
Qed.

Lemma serialized_exam_exposes (q : Question) (ch : Choice) :
  q ∈ questions db → question_exam q = exam_id e →
  ch ∈ choices db → choice_question ch = question_id q →
  exposes_is_correct (ExamSerializer CourseSerializer db e) ch.
Proof.
  intros Hq Hqe Hch Hcq.
  exists (QuestionSerializer db <$> exam_questions_all db (exam_id e)),
    (QuestionSerializer db q),
    (ChoiceSerializer <$> question_choices_all db (question_id q)),
    (ChoiceSerializer ch).
  split; [reflexivity|]. split.
  { apply list_elem_of_fmap_2. unfold exam_questions_all.
    by apply list_elem_of_filter. }
  split; [reflexivity|]. split.
  { apply list_elem_of_fmap_2. unfold question_choices_all.
    by apply list_elem_of_filter. }
  split; reflexivity.
Qed.

End Reading.

(** C9.  For a student enrolled in the course of an exam: the list view
    returns the serialized exam among its items, the detail view returns
    it for the exam's key, and that serialized exam holds, for every
    choice of every question of the exam, the choice's [is_correct]
    value. *)
Theorem enrolled_student_reads_is_correct
    (CourseSerializer : Course → Native)
    (db : DB) (u : User) (e : Exam) (c : Course) :
  user_type u = "student" →
  objects_get exam_id (exams db) (exam_id e) = Some e →
  objects_get course_id (courses db) (course e) = Some c →
  user_id u ∈ students c →
  (∃ items, ExamListView_list CourseSerializer (AuthUser u) db = (Return items, db)
            ∧ ExamSerializer CourseSerializer db e ∈ items)
  ∧ ExamDetailView_retrieve CourseSerializer u (exam_id e) db
    = (Return (ExamSerializer CourseSerializer db e), db)
  ∧ ∀ q ch, q ∈ questions db → question_exam q = exam_id e →
            ch ∈ choices db → choice_question ch = question_id q →
            exposes_is_correct (ExamSerializer CourseSerializer db e) ch.
Proof.
  intros Hs He Hc Hin. split; [|split].
  - eexists. split; [reflexivity|].
    apply list_elem_of_fmap_2. by eapply student_queryset_has_exam.
  - unfold ExamDetailView_retrieve.
    rewrite detail_queryset_student by done.
    rewrite (objects_get_filter _ _ _ _ e He); [done|by exists c].
  - intros q ch. by apply serialized_exam_exposes.
Qed.

Lemma enrolled_student_reads_is_correct_witness :
  let serializer := λ c : Course, NInt (course_id c) in
  (∃ items, ExamListView_list serializer (AuthUser alice) db0 = (Return items, db0)
            ∧ ExamSerializer serializer db0 midterm ∈ items)
  ∧ ExamDetailView_retrieve serializer alice 1 db0
    = (Return (ExamSerializer serializer db0 midterm), db0)
  ∧ exposes_is_correct (ExamSerializer serializer db0 midterm) c22.
Proof.
  intros serializer.
  assert (user_id alice ∈ students algebra) as Hin by (vm_compute; left).
  destruct (enrolled_student_reads_is_correct serializer db0 alice midterm algebra
              eq_refl eq_refl eq_refl Hin) as (Hlist & Hget & Hflag).
  split; [exact Hlist|]. split; [exact Hget|].
  apply (Hflag q2 c22); [vm_compute; right; left | reflexivity
                        | vm_compute; do 3 right; left | reflexivity].
Defined.

(** * Further properties of the views and serializers *)

(** ** The completeness check *)

(** X1.  [validate] accepts a payload exactly when every question of the
    exam has an answer and every answer is to a question of the exam. *)
Theorem validate_accepts_iff_all_answered
    (db : DB) (attempt : ExamAttempt) (payload : list Answer) :
  ExamSubmissionSerializer.validate attempt payload db = (Return payload, db)
  ↔ (∀ q, q ∈ exam_questions_all db (exam attempt) →
          ∃ a, a ∈ payload ∧ question a = question_id q)
    ∧ (∀ a, a ∈ payload →
          ∃ q, q ∈ exam_questions_all db (exam attempt) ∧ question a = question_id q).
Proof.
  assert (answered_questions payload = exam_questions db attempt
          ↔ (∀ q, q ∈ exam_questions_all db (exam attempt) →
                  ∃ a, a ∈ payload ∧ question a = question_id q)
            ∧ (∀ a, a ∈ payload →
                  ∃ q, q ∈ exam_questions_all db (exam attempt)
                       ∧ question a = question_id q)) as Hsets.
  { unfold answered_questions, exam_questions. rewrite set_eq. split.
    - intros Heq. split.
      + intros q Hq.
        assert (question_id q ∈ (list_to_set (question <$> payload) : gset Z)) as Hin.
        { apply Heq, elem_of_list_to_set, list_elem_of_fmap. by exists q. }
        apply elem_of_list_to_set, list_elem_of_fmap in Hin as (a & -> & Ha).
        by exists a.
      + intros a Ha.
        assert (question a ∈ (list_to_set
                  (question_id <$> exam_questions_all db (exam attempt)) : gset Z)) as Hin.
        { apply Heq, elem_of_list_to_set, list_elem_of_fmap. by exists a. }
        apply elem_of_list_to_set, list_elem_of_fmap in Hin as (q & -> & Hq).
        by exists q.
    - intros [Hall Honly] k. rewrite !elem_of_list_to_set, !list_elem_of_fmap. split.
      + intros (a & -> & Ha). destruct (Honly a Ha) as (q & Hq & ->). by exists q.
      + intros (q & -> & Hq). destruct (Hall q Hq) as (a & Ha & <-). by exists a. }
  rewrite <- Hsets. split.
  - intros Hv. destruct (decide (answered_questions payload = exam_questions db attempt))
      as [|Hne]; [done|]. by rewrite (validate_ne _ _ _ Hne) in Hv.
  - apply validate_eq.
Qed.

(** X2.  An empty payload is accepted exactly for an exam without questions. *)
Theorem validate_empty_payload (db : DB) (attempt : ExamAttempt) :
  ExamSubmissionSerializer.validate attempt [] db = (Return [], db)
  ↔ exam_questions_all db (exam attempt) = [].
Proof.
  split.
  - intros Hv. destruct (exam_questions_all db (exam attempt)) as [|q l] eqn:Hq; [done|].
    exfalso.
    destruct (decide (answered_questions [] = exam_questions db attempt)) as [He|Hne].
    + unfold answered_questions, exam_questions in He. rewrite Hq in He.
      assert (question_id q ∈ (∅ : gset Z)) as Hin; [|set_solver].
      simpl in He. rewrite He. set_solver.
    + by rewrite (validate_ne _ _ _ Hne) in Hv.
  - intros Hq. apply validate_eq. unfold answered_questions, exam_questions.
    by rewrite Hq.
Qed.

(** ** Analytics: who is answered, and with what numbers *)

(** Every way [StaffExamAnalyticsView.get] can end, with the store it
    leaves. *)
Lemma analytics_get_cases (user : User) (pk : Z) (db : DB) :
  StaffExamAnalyticsView.get user pk db = (Raise Http404, db)
  ∨ StaffExamAnalyticsView.get user pk db = (Raise (DoesNotExist "Course"), db)
  ∨ StaffExamAnalyticsView.get user pk db
    = (Return {| status := HTTP_403_FORBIDDEN; data := Detail "Not authorized" |}, db)
  ∨ ∃ e c,
      objects_get exam_id (exams db) pk = Some e
      ∧ objects_get course_id (courses db) (course e) = Some c
      ∧ canManageExam user c
      ∧ StaffExamAnalyticsView.get user pk db
        = (Return {| status := 200;
                     data := Analytics
                       (length (StaffExamAnalyticsView.attempts_of db e))
                       (length (StaffExamAnalyticsView.submitted
                                  (StaffExamAnalyticsView.attempts_of db e)))
                       (StaffExamAnalyticsView.or_0
                          (StaffExamAnalyticsView.Avg_score
                             (StaffExamAnalyticsView.submitted
                                (StaffExamAnalyticsView.attempts_of db e))))
                       (StaffExamAnalyticsView.passing_rate_of
                          (StaffExamAnalyticsView.attempts_of db e) e
                          (length (StaffExamAnalyticsView.submitted
                                     (StaffExamAnalyticsView.attempts_of db e)))) |},
           db).
Proof.
  destruct (objects_get exam_id (exams db) pk) as [e|] eqn:He.
  - destruct (decide (user_type user = "teacher")) as [Ht|Ht].
    + destruct (objects_get course_id (courses db) (course e)) as [c|] eqn:Hc.
      * destruct (decide (instructor c = user_id user)) as [Hi|Hi].
        -- do 3 right. exists e, c. repeat split; try done.
           by apply get_authorized with (c := c).
        -- right. right. left. unfold StaffExamAnalyticsView.get. view_unfold.
           rewrite He, bool_decide_false by (by intros []). rewrite Hc.
           by rewrite bool_decide_true.
      * right. left. unfold StaffExamAnalyticsView.get. view_unfold.
        rewrite He, bool_decide_false by (by intros []). by rewrite Hc.
    + right. right. left. unfold StaffExamAnalyticsView.get. view_unfold.
      rewrite He. by rewrite bool_decide_true.
  - left. unfold StaffExamAnalyticsView.get. view_unfold. by rewrite He.
Qed.

(** X4.  The analytics of an exam are answered (status 200) only to a
    teacher who is the instructor of the exam's course, and the view
    never changes the store. *)
Theorem analytics_only_for_instructor
    (user : User) (pk : Z) (db db' : DB) (r : Response) :
  StaffExamAnalyticsView.get user pk db = (Return r, db') →
  db' = db
  ∧ (status r = 200 →
     ∃ e c, objects_get exam_id (exams db) pk = Some e
            ∧ objects_get course_id (courses db) (course e) = Some c
            ∧ canManageExam user c).
Proof.
  intros Hget.
  destruct (analytics_get_cases user pk db) as [H|[H|[H|(e & c & He & Hc & Hm & H)]]];
    rewrite H in Hget; try done.
  - injection Hget as <- <-. split; [done|]. by intros [=].
  - injection Hget as <- <-. split; [done|]. intros _. by exists e, c.
Qed.

Lemma analytics_only_for_instructor_witness :
  ∃ r, StaffExamAnalyticsView.get teacher1 1 db0 = (Return r, db0)
       ∧ status r = 200
       ∧ ∃ e c, objects_get exam_id (exams db0) 1 = Some e
                ∧ objects_get course_id (courses db0) (course e) = Some c
                ∧ canManageExam teacher1 c.
Proof.
  set (r := {| status := 200; data := Analytics 1 0 0 0 |}).
  assert (StaffExamAnalyticsView.get teacher1 1 db0 = (Return r, db0)) as Hget
    by (by vm_compute).
  exists r. split; [exact Hget|]. split; [reflexivity|].
  exact (proj2 (analytics_only_for_instructor teacher1 1 db0 db0 r Hget) eq_refl).
Defined.

Lemma inject_nat_nonneg (n : nat) : (0 <= inject_Z (Z.of_nat n))%Q.
Proof. change 0%Q with (inject_Z 0). rewrite <- Zle_Qle. lia. Qed.

Lemma passing_rate_of_nonneg l e n :
  (0 <= StaffExamAnalyticsView.passing_rate_of l e n)%Q.
Proof.
  unfold StaffExamAnalyticsView.passing_rate_of. case_bool_decide; [|done].
  apply Qmult_le_0_compat; [|done].
  apply Qmult_le_0_compat; [apply inject_nat_nonneg|].
  apply Qinv_le_0_compat, inject_nat_nonneg.
Qed.

(** X5.  In every analytics answer the completed attempts are at most the
    total attempts, and the passing rate is not negative. *)
Theorem analytics_counts_bounded
    (user : User) (pk : Z) (db db' : DB) (total completed : nat) (avg rate : Q) :
  StaffExamAnalyticsView.get user pk db
  = (Return {| status := 200; data := Analytics total completed avg rate |}, db') →
  (completed ≤ total)%nat ∧ (0 <= rate)%Q.
Proof.
  intros Hget.
  destruct (analytics_get_cases user pk db) as [H|[H|[H|(e & c & He & Hc & Hm & H)]]];
    rewrite H in Hget; try done.
  injection Hget as <- <- <- <- <-. split.
  - apply length_filter.
  - apply passing_rate_of_nonneg.
Qed.

Lemma analytics_counts_bounded_witness :
  let db := with_attempts [scored 1 20 12 (Some 5); scored 2 21 14 None] in
  StaffExamAnalyticsView.get teacher1 1 db
  = (Return {| status := 200; data := Analytics 2 1 12 200 |}, db)
  ∧ (1 ≤ 2)%nat ∧ (0 <= 200)%Q.
Proof.
  intros db.
  assert (StaffExamAnalyticsView.get teacher1 1 db
          = (Return {| status := 200; data := Analytics 2 1 12 200 |}, db)) as Hget
    by (by vm_compute).
  split; [exact Hget|].
  exact (analytics_counts_bounded teacher1 1 db db 2 1 12 200 Hget).
Defined.

(** X6.  When every attempt at or above the passing mark carries the
    completion marker, the passing rate lies between 0 and 100. *)
Theorem passing_rate_within_percent (l : list ExamAttempt) (e : Exam) :
  (∀ a, a ∈ l → StaffExamAnalyticsView.score__gte (passing_marks e) a →
        submitted_at a ≠ None) →
  (0 <= StaffExamAnalyticsView.passing_rate_of l e
          (length (StaffExamAnalyticsView.submitted l)))%Q
  ∧ (StaffExamAnalyticsView.passing_rate_of l e
       (length (StaffExamAnalyticsView.submitted l)) <= 100)%Q.
Proof.
  intros Hall. split; [apply passing_rate_of_nonneg|].
  rewrite passing_rate_of_spec by done. unfold passing_rate_spec.
  destruct (StaffExamAnalyticsView.submitted l) as [|a l'] eqn:Hs; [done|].
  set (n := length (StaffExamAnalyticsView.score_gte (passing_marks e) (a :: l'))).
  set (m := length (a :: l')).
  assert (n ≤ m)%nat as Hle by apply length_filter.
  assert (0 < m)%nat as Hpos by (unfold m; simpl; lia).
  apply (Qle_trans _ (1 * 100)%Q); [|unfold Qle; simpl; lia].
  apply Qmult_le_compat_r; [|done].
  apply Qle_shift_div_r.
  - change 0%Q with (inject_Z 0). rewrite <- Zlt_Qlt. lia.
  - rewrite Qmult_1_l. rewrite <- Zle_Qle. lia.
Qed.

Lemma passing_rate_within_percent_witness :
  let l := [scored 1 20 12 (Some 5); scored 2 21 10 (Some 6);
            scored 3 22 15 (Some 7); scored 4 23 3 (Some 8)] in
  (0 <= StaffExamAnalyticsView.passing_rate_of l midterm
          (length (StaffExamAnalyticsView.submitted l)))%Q
  ∧ (StaffExamAnalyticsView.passing_rate_of l midterm
       (length (StaffExamAnalyticsView.submitted l)) <= 100)%Q.
Proof.
  intros l. apply (passing_rate_within_percent l midterm).
  intros a Ha _. unfold l in Ha.
  repeat (apply elem_of_cons in Ha as [->|Ha]; [by vm_compute|]).
  by apply elem_of_nil in Ha.
Defined.

(** X7.  Attempts on other exams do not enter the analytics of an exam:
    storing one more of them leaves the answer as it was. *)
Theorem analytics_ignores_other_exams
    (user : User) (pk : Z) (db : DB) (a : ExamAttempt) :
  exam a ≠ pk →
  fst (StaffExamAnalyticsView.get user pk
         {| courses := courses db; exams := exams db; questions := questions db;
            choices := choices db; attempts := attempts db ++ [a] |})
  = fst (StaffExamAnalyticsView.get user pk db).
Proof.
  intros Hne.
  set (db2 := {| courses := courses db; exams := exams db; questions := questions db;
                 choices := choices db; attempts := attempts db ++ [a] |}).
  unfold StaffExamAnalyticsView.get. view_unfold.
  change (exams db2) with (exams db).
  destruct (objects_get exam_id (exams db) pk) as [e|] eqn:He; [|done].
  case_bool_decide; [done|].
  change (courses db2) with (courses db).
  destruct (objects_get course_id (courses db) (course e)) as [c|]; [|done].
  case_bool_decide; [done|]. cbn [fst].
  assert (StaffExamAnalyticsView.attempts_of db2 e
          = StaffExamAnalyticsView.attempts_of db e) as ->; [|done].
  unfold StaffExamAnalyticsView.attempts_of, db2. simpl.
  rewrite filter_app, filter_cons_False, filter_nil, app_nil_r; [done|].
  apply objects_get_key in He as [-> _]. done.
Qed.

Lemma analytics_ignores_other_exams_witness :
  let a := {| attempt_id := 9; exam := 2; student := 20; start_time := 1;
              end_time := Some 2; score := Some 15; is_completed := true;
              submitted_at := Some 2 |} in
  exam a ≠ 1
  ∧ fst (StaffExamAnalyticsView.get teacher1 1 (with_attempts [started 1 20; a]))
    = fst (StaffExamAnalyticsView.get teacher1 1 db0).
Proof.
  intros a. assert (exam a ≠ 1) as Hne by done. split; [exact Hne|].
  exact (analytics_ignores_other_exams teacher1 1 db0 a Hne).
Defined.

(** ** Attempts: starting and reading back *)

Lemma next_id_fresh {R} (key : R → Z) (table : list R) (r : R) :
  r ∈ table → key r < next_id key table.
Proof.
  unfold next_id. induction table as [|x l IH]; intros Hin.
  - by apply elem_of_nil in Hin.
  - apply elem_of_cons in Hin as [->|Hin]; simpl; [lia|].
    specialize (IH Hin). lia.
Qed.

Lemma objects_get_app_new {R} (key : R → Z) (table : list R) (r : R) :
  (∀ x, x ∈ table → key x ≠ key r) →
  objects_get key (table ++ [r]) (key r) = Some r.
Proof.
  unfold objects_get. induction table as [|x l IH]; intros Hne; simpl.
  - by rewrite bool_decide_true.
  - rewrite bool_decide_false by (apply Hne; left).
    apply IH. intros y Hy. apply Hne. by right.
Qed.

Lemma perform_create_enrolled now db user pk end_time_ e c :
  objects_get exam_id (exams db) pk = Some e →
  objects_get course_id (courses db) (course e) = Some c →
  user_id user ∈ students c →
  ExamAttemptView.perform_create now user pk end_time_ db
  = ExamAttempt_objects_create now (user_id user) (exam_id e) end_time_ db.
Proof.
  intros He Hc Hin. unfold ExamAttemptView.perform_create. view_unfold.
  rewrite He, Hc. apply students_filter_exists_spec in Hin. by rewrite Hin.
Qed.

Lemma perform_create_returns now db user pk end_time_ a db' :
  ExamAttemptView.perform_create now user pk end_time_ db = (Return a, db') →
  ∃ e c, objects_get exam_id (exams db) pk = Some e
         ∧ objects_get course_id (courses db) (course e) = Some c
         ∧ user_id user ∈ students c.
Proof.
  unfold ExamAttemptView.perform_create. view_unfold.
  destruct (objects_get exam_id (exams db) pk) as [e|] eqn:He; [|done].
  destruct (objects_get course_id (courses db) (course e)) as [c|] eqn:Hc; [|done].
  destruct (students_filter_exists c (user_id user)) eqn:Hs; [|done].
  intros _. exists e, c. by apply students_filter_exists_spec in Hs.
Qed.

(** X8.  [ExamAttemptDetailView] hands out an attempt only to its own
    student: whatever it returns is a stored attempt with the requested
    key whose student is the requesting user, and the store is left as
    it was. *)
Theorem attempt_detail_only_owner
    (user : User) (pk : Z) (db db' : DB) (a : ExamAttempt) :
  ExamAttemptDetailView.get_object user pk db = (Return a, db') →
  db' = db ∧ a ∈ attempts db ∧ attempt_id a = pk ∧ student a = user_id user.
Proof.
  unfold ExamAttemptDetailView.get_object, get_object_or_404.
  destruct (objects_get attempt_id (ExamAttemptDetailView.get_queryset user db) pk)
    as [a'|] eqn:Hg; [|done].
  intros [= -> <-]. apply objects_get_key in Hg as [Hk Hin].
  apply list_elem_of_filter in Hin as [Hs Hin]. done.
Qed.

Lemma attempt_detail_only_owner_witness :
  ExamAttemptDetailView.get_object alice 1 db0 = (Return (started 1 20), db0)
  ∧ started 1 20 ∈ attempts db0
  ∧ student (started 1 20) = user_id alice
  ∧ ExamAttemptDetailView.get_object bob 1 db0 = (Raise Http404, db0).
Proof.
  assert (ExamAttemptDetailView.get_object alice 1 db0 = (Return (started 1 20), db0))
    as Hget by (by vm_compute).
  destruct (attempt_detail_only_owner alice 1 db0 db0 _ Hget) as (_ & Hin & _ & Hs).
  split; [exact Hget|]. split; [exact Hin|]. split; [exact Hs|]. by vm_compute.
Defined.

(** X9.  An attempt that [ExamAttemptView] has just created is read back by
    [ExamAttemptDetailView] for the same user under the new key. *)
Theorem started_attempt_is_retrievable
    (now : Z) (db db' : DB) (user : User) (pk : Z) (end_time_ : option Z)
    (a : ExamAttempt) :
  ExamAttemptView.perform_create now user pk end_time_ db = (Return a, db') →
  ExamAttemptDetailView.get_object user (attempt_id a) db' = (Return a, db').
Proof.
  intros Hp. destruct (perform_create_returns _ _ _ _ _ _ _ Hp) as (e & c & He & Hc & Hin).
  rewrite (perform_create_enrolled _ _ _ _ _ _ _ He Hc Hin) in Hp.
  unfold ExamAttempt_objects_create in Hp. injection Hp as <- <-.
  unfold ExamAttemptDetailView.get_object, get_object_or_404,
    ExamAttemptDetailView.get_queryset.
  cbn [attempts student attempt_id].
  rewrite filter_app, filter_cons_True, filter_nil by done.
  match goal with
  | |- context [objects_get attempt_id (?l ++ [?r]) _] =>
      pose proof (objects_get_app_new attempt_id l r) as Hnew
  end.
  cbn [attempt_id] in Hnew. rewrite Hnew; [done|].
  intros x Hx. apply list_elem_of_filter in Hx as [_ Hx].
  apply (next_id_fresh attempt_id) in Hx. lia.
Qed.

Lemma started_attempt_is_retrievable_witness :
  ∃ a db',
    ExamAttemptView.perform_create 7 alice 1 None db0 = (Return a, db')
    ∧ attempt_id a = 2
    ∧ ExamAttemptDetailView.get_object alice 2 db' = (Return a, db').
Proof.
  set (a := {| attempt_id := 2; exam := 1; student := 20; start_time := 7;
               end_time := None; score := None; is_completed := false;
               submitted_at := None |}).
  set (db' := with_attempts [started 1 20; a]).
  assert (ExamAttemptView.perform_create 7 alice 1 None db0 = (Return a, db')) as Hp
    by (by vm_compute).
  exists a, db'. split; [exact Hp|]. split; [reflexivity|].
  exact (started_attempt_is_retrievable 7 db0 db' alice 1 None a Hp).
Defined.

(** X10.  Nothing limits a student to one attempt in progress: an enrolled
    user who starts the same exam twice gets two attempts with different
    keys, both stored, neither completed. *)
Theorem start_attempt_twice
    (now1 now2 : Z) (db : DB) (user : User) (pk : Z) (end1 end2 : option Z)
    (e : Exam) (c : Course) :
  objects_get exam_id (exams db) pk = Some e →
  objects_get course_id (courses db) (course e) = Some c →
  user_id user ∈ students c →
  ∃ a1 db1 a2 db2,
    ExamAttemptView.perform_create now1 user pk end1 db = (Return a1, db1)
    ∧ ExamAttemptView.perform_create now2 user pk end2 db1 = (Return a2, db2)
    ∧ attempts db2 = (attempts db ++ [a1; a2])%list
    ∧ attempt_id a1 ≠ attempt_id a2
    ∧ student a1 = user_id user ∧ student a2 = user_id user
    ∧ exam a1 = exam_id e ∧ exam a2 = exam_id e
    ∧ is_completed a1 = false ∧ is_completed a2 = false.
Proof.
  intros He Hc Hin. eexists _, _, _, _.
  split. { rewrite (perform_create_enrolled now1 _ _ _ end1 _ _ He Hc Hin). reflexivity. }
  split. { rewrite (perform_create_enrolled now2 _ _ _ end2 e c) by done. reflexivity. }
  cbn. split; [by rewrite <- app_assoc|]. split; [|done].
  match goal with
  | |- next_id _ ?l ≠ next_id _ (?l ++ [?r]) =>
      pose proof (next_id_fresh attempt_id (l ++ [r]) r) as Hf
  end.
  assert (∀ (x : ExamAttempt) (l : list ExamAttempt), x ∈ (l ++ [x])%list) as Hlast
    by (intros; apply elem_of_app; right; left).
  specialize (Hf (Hlast _ _)). cbn [attempt_id] in Hf. lia.
Qed.

Lemma start_attempt_twice_witness :
  ∃ a1 db1 a2 db2,
    ExamAttemptView.perform_create 7 alice 1 None db0 = (Return a1, db1)
    ∧ ExamAttemptView.perform_create 8 alice 1 None db1 = (Return a2, db2)
    ∧ attempts db2 = (attempts db0 ++ [a1; a2])%list
    ∧ attempt_id a1 ≠ attempt_id a2
    ∧ student a1 = user_id alice ∧ student a2 = user_id alice
    ∧ exam a1 = exam_id midterm ∧ exam a2 = exam_id midterm
    ∧ is_completed a1 = false ∧ is_completed a2 = false.
Proof.
  apply (start_attempt_twice 7 8 db0 alice 1 None None midterm algebra);
    [reflexivity | reflexivity | vm_compute; left].
Defined.

(** ** Which exams a user reaches *)

(** X11.  Every exam [ExamListView] lists is a stored exam whose course the
    authenticated user teaches (as a teacher) or is enrolled in (as a
    student); the schema generator, an anonymous user and a user of
    another type are listed nothing. *)
Theorem exam_list_visibility
    (swagger_fake_view : bool) (user : RequestUser) (db : DB) (e : Exam) :
  e ∈ ExamListView.get_queryset swagger_fake_view user db →
  swagger_fake_view = false
  ∧ e ∈ exams db
  ∧ ∃ u c, user = AuthUser u
           ∧ objects_get course_id (courses db) (course e) = Some c
           ∧ ((user_type u = "teacher" ∧ instructor c = user_id u)
              ∨ (user_type u = "student" ∧ user_id u ∈ students c)).
Proof.
  unfold ExamListView.get_queryset. destruct swagger_fake_view.
  { intros H. by apply elem_of_nil in H. }
  destruct user as [|u]. { intros H. by apply elem_of_nil in H. }
  case_bool_decide as Ht.
  - intros [(c & Hc & Hi) Hin]%list_elem_of_filter.
    split; [done|]. split; [done|]. exists u, c. eauto.
  - case_bool_decide as Hs.
    + intros [(c & Hc & Hi) Hin]%list_elem_of_filter.
      split; [done|]. split; [done|]. exists u, c. eauto.
    + intros H. by apply elem_of_nil in H.
Qed.

Lemma exam_list_visibility_witness :
  midterm ∈ ExamListView.get_queryset false (AuthUser alice) db0
  ∧ ExamListView.get_queryset false (AuthUser bob) db0 = []
  ∧ ∃ u c, AuthUser alice = AuthUser u
           ∧ objects_get course_id (courses db0) (course midterm) = Some c
           ∧ ((user_type u = "teacher" ∧ instructor c = user_id u)
              ∨ (user_type u = "student" ∧ user_id u ∈ students c)).
Proof.
  assert (midterm ∈ ExamListView.get_queryset false (AuthUser alice) db0) as Hin
    by (vm_compute; left).
  split; [exact Hin|]. split; [by vm_compute|].
  exact (proj2 (proj2 (exam_list_visibility false (AuthUser alice) db0 midterm Hin))).
Defined.

(** X12.  [ExamUpdateView] and [ExamDeleteView] resolve an exam only for the
    instructor of its course, whatever the user's type; for anyone else,
    as for a missing exam, the outcome is [Http404]. *)
Theorem exam_update_delete_object (user : User) (pk : Z) (db : DB) :
  ExamUpdateView.get_object user pk db = ExamDeleteView.get_object user pk db
  ∧ ((∃ e c, ExamUpdateView.get_object user pk db = (Return e, db)
             ∧ e ∈ exams db ∧ exam_id e = pk
             ∧ objects_get course_id (courses db) (course e) = Some c
             ∧ instructor c = user_id user)
     ∨ ExamUpdateView.get_object user pk db = (Raise Http404, db)).
Proof.
  split; [reflexivity|].
  unfold ExamUpdateView.get_object, get_object_or_404.
  destruct (objects_get exam_id (ExamUpdateView.get_queryset user db) pk)
    as [e|] eqn:Hg; [|by right].
  left. apply objects_get_key in Hg as [Hk Hin].
  apply list_elem_of_filter in Hin as [(c & Hc & Hi) Hin]. by exists e, c.
Qed.

(** X13.  The three staff views that look an exam up: the exam itself comes
    back only for a teacher who is the instructor of its course; a user
    who is not gets a 403 [Response] as the return value of
    [get_object], and [PermissionDenied] is never raised. *)
Theorem staff_get_object_outcomes (user : User) (pk : Z) (db : DB) :
  StaffExamDetailView.get_object = StaffExamUpdateView.get_object
  ∧ StaffExamUpdateView.get_object = StaffExamDeleteView.get_object
  ∧ snd (StaffExamDetailView.get_object user pk db) = db
  ∧ match fst (StaffExamDetailView.get_object user pk db) with
    | Return (inr e) =>
        objects_get exam_id (exams db) pk = Some e
        ∧ ∃ c, objects_get course_id (courses db) (course e) = Some c
               ∧ canManageExam user c
    | Return (inl r) => status r = HTTP_403_FORBIDDEN
    | Raise ex => ex = Http404 ∨ ex = DoesNotExist "Course"
    end.
Proof.
  split; [reflexivity|]. split; [reflexivity|].
  unfold StaffExamDetailView.get_object, Staff_get_object. view_unfold.
  destruct (objects_get exam_id (exams db) pk) as [e|] eqn:He;
    [|simpl; split; [done|by left]].
  case_bool_decide as Ht; [simpl; by split|].
  destruct (objects_get course_id (courses db) (course e)) as [c|] eqn:Hc;
    [|simpl; split; [done|by right]].
  case_bool_decide as Hi; [simpl; by split|]. simpl. split; [done|]. split; [done|].
  exists c. split; [done|]. split.
  - by destruct (decide (user_type user = "teacher")).
  - by destruct (decide (instructor c = user_id user)).
Qed.

(** ** Creating exams: the other two paths *)



(** X15.  [ExamListView.perform_create] on an existing course.  For the
    course's instructor, whatever the user's type, one exam is appended
    to the exams under a key no stored exam has, for that course and
    with the submitted values, and the other tables are as before.  For
    anyone else the call raises and the store is as before.  So the
    call returns exactly for the instructor. *)
Theorem exam_list_create_iff_instructor
    (user : User) (fields : ExamFields) (course_ : Z) (db : DB) (c : Course) :
  objects_get course_id (courses db) course_ = Some c →
  (instructor c = user_id user →
   ∃ e db',
     ExamListView.perform_create user fields course_ db = (Return e, db')
     ∧ exams db' = (exams db ++ [e])%list
     ∧ courses db' = courses db ∧ questions db' = questions db
     ∧ choices db' = choices db ∧ attempts db' = attempts db
     ∧ (∀ x, x ∈ exams db → exam_id x ≠ exam_id e)
     ∧ course e = course_
     ∧ title e = f_title fields ∧ description e = f_description fields
     ∧ duration e = f_duration fields ∧ total_marks e = f_total_marks fields
     ∧ passing_marks e = f_passing_marks fields
     ∧ exam_start_time e = f_start_time fields ∧ exam_end_time e = f_end_time fields
     ∧ is_published e = f_is_published fields)
  ∧ (instructor c ≠ user_id user →
     ∃ ex, ExamListView.perform_create user fields course_ db = (Raise ex, db))
  ∧ ((∃ e db', ExamListView.perform_create user fields course_ db = (Return e, db'))
     ↔ instructor c = user_id user).
Proof.
  intros Hc.
  assert (instructor c ≠ user_id user →
          ∃ ex, ExamListView.perform_create user fields course_ db = (Raise ex, db))
    as Hdenied.
  { intros Hi. eexists. unfold ExamListView.perform_create. view_unfold. rewrite Hc.
    by rewrite bool_decide_true. }
  assert (instructor c = user_id user →
          ExamListView.perform_create user fields course_ db
          = Exam_objects_create fields course_ db) as Hcreate.
  { intros Hi. unfold ExamListView.perform_create. view_unfold. rewrite Hc.
    by rewrite bool_decide_false by (by intros []). }
  split; [|split; [done|split]].
  - intros Hi. rewrite (Hcreate Hi). unfold Exam_objects_create.
    eexists _, _. split; [reflexivity|]. cbn.
    do 5 (split; [done|]). split; [|by repeat split].
    intros x Hx. apply (next_id_fresh exam_id) in Hx. lia.
  - intros (e & db' & Hp). destruct (decide (instructor c = user_id user)) as [|Hi]; [done|].
    destruct (Hdenied Hi) as [ex Hex]. by rewrite Hex in Hp.
  - intros Hi. rewrite (Hcreate Hi). unfold Exam_objects_create. by eexists _, _.
Qed.

Lemma exam_list_create_iff_instructor_witness :
  objects_get course_id (courses db0) 1 = Some algebra
  ∧ (∃ e db', ExamListView.perform_create teacher1 fields0 1 db0 = (Return e, db')
              ∧ exams db' = [midterm; e] ∧ exam_id e = 2 ∧ course e = 1
              ∧ title e = "Quiz" ∧ passing_marks e = 5)
  ∧ (∃ ex, ExamListView.perform_create teacher2 fields0 1 db0 = (Raise ex, db0)).
Proof.
  pose proof (exam_list_create_iff_instructor teacher1 fields0 1 db0 algebra eq_refl)
    as [Hyes _].
  pose proof (exam_list_create_iff_instructor teacher2 fields0 1 db0 algebra eq_refl)
    as [_ [Hno _]].
  split; [reflexivity|]. split.
  - destruct (Hyes eq_refl) as (e & db' & Hp & Hexams & _).
    vm_compute in Hp. injection Hp as <- <-. eexists _, _. by vm_compute.
  - apply Hno. by vm_compute.
Defined.

(** ** Questions and their choices *)

Lemma with_choices_same (db : DB) : with_choices db (choices db) = db.
Proof. by destruct db. Qed.

Lemma view_bind_eq {A B} (m : View A) (k : A → View B) (db : DB) :
  (m ≫= k) db
  = match m db with
    | (Return a, db1) => k a db1
    | (Raise ex, db1) => (Raise ex, db1)
    end.
Proof. reflexivity. Qed.

Lemma for_each_nil {A} (body : A → View unit) (db : DB) :
  for_each [] body db = (Return (), db).
Proof. reflexivity. Qed.

Lemma for_each_cons {A} (body : A → View unit) (x : A) (l : list A) (db : DB) :
  for_each (x :: l) body db
  = match body x db with
    | (Return _, db1) => for_each l body db1
    | (Raise ex, db1) => (Raise ex, db1)
    end.
Proof. reflexivity. Qed.

Lemma for_each_ext {A} (body1 body2 : A → View unit) (l : list A) (db : DB) :
  (∀ x db1, x ∈ l → body1 x db1 = body2 x db1) →
  for_each l body1 db = for_each l body2 db.
Proof.
  revert db. induction l as [|x l IH]; intros db Hext; [done|].
  rewrite !for_each_cons, Hext by left.
  destruct (body2 x db) as [[[]|ex] db1]; [|done].
  apply IH. intros y db2 Hy. apply Hext. by right.
Qed.

Lemma filter_none {A} (P : A → Prop) `{∀ x, Decision (P x)} (l : list A) :
  (∀ x, x ∈ l → ¬ P x) → filter P l = [].
Proof.
  induction l as [|x l IH]; intros Hno; [done|].
  rewrite filter_cons_False by (apply Hno; left).
  apply IH. intros y Hy. apply Hno. by right.
Qed.

Section Questions.

Variable Qd : QuestionDefaults.
Variable Cd : ChoiceDefaults.

(** A loop that creates one choice per item appends one row per item,
    in order. *)
Lemma for_each_create {X} (f : X → ChoiceFields) (q : Z) (items : list X) (db : DB) :
  ∃ new,
    for_each items (λ x, Choice_objects_create Cd q (f x);; mret ()) db
    = (Return (), with_choices db (choices db ++ new))
    ∧ Forall2 (λ c x, created_from Cd q c (f x)) new items.
Proof.
  revert db. induction items as [|x l IH]; intros db.
  - exists []. rewrite for_each_nil, app_nil_r, with_choices_same. by split.
  - rewrite for_each_cons. unfold Choice_objects_create at 1. view_unfold.
    match goal with
    | |- context [with_choices db (choices db ++ [?c])] => set (c0 := c)
    end.
    destruct (IH (with_choices db (choices db ++ [c0]))) as (new & Hnew & Hall).
    exists (c0 :: new). split.
    + unfold view_bind in Hnew. rewrite Hnew. cbn [choices with_choices].
      by rewrite <- app_assoc.
    + by constructor.
Qed.

Lemma create_appends (exam_ : Z) (d : QuestionData) (choices_data : list ChoiceFields)
    (db : DB) :
  ∃ q new,
    QuestionCreateSerializer_create Qd Cd exam_ d choices_data db
    = (Return q,
       with_choices (with_questions db (questions db ++ [q])) (choices db ++ new))
    ∧ question_id q = next_id question_id (questions db)
    ∧ question_exam q = exam_
    ∧ Forall2 (created_from Cd (question_id q)) new choices_data.
Proof.
  unfold QuestionCreateSerializer_create. rewrite view_bind_eq.
  unfold Question_objects_create at 1. cbv zeta.
  match goal with
  | |- context [with_questions db (questions db ++ [?x])] => set (q := x)
  end.
  destruct (for_each_create id (question_id q) choices_data
              (with_questions db (questions db ++ [q]))) as (new & Hnew & Hall).
  exists q, new. rewrite view_bind_eq. unfold id in Hnew. rewrite Hnew.
  by repeat split.
Qed.

(** X16.  The instructor of the exam's course adds a question through
    [QuestionListView]: the question is appended under a key no stored
    question has, belongs to the exam, and one choice per submitted item
    is appended, in order, with the item's values.  When every stored
    choice belongs to a stored question, these are exactly the choices
    of the new question. *)
Theorem question_create_stores_choices
    (user : User) (pk exam_id_ : option Z) (d : QuestionData)
    (choices_data : list ChoiceFields) (db : DB) (k : Z) (e : Exam) (c : Course) :
  kwargs_pk_or_exam_id pk exam_id_ = Some k →
  objects_get exam_id (exams db) k = Some e →
  objects_get course_id (courses db) (course e) = Some c →
  instructor c = user_id user →
  ∃ q new db',
    QuestionListView_perform_create Qd Cd user pk exam_id_ d choices_data db
    = (Return q, db')
    ∧ questions db' = (questions db ++ [q])%list
    ∧ choices db' = (choices db ++ new)%list
    ∧ question_exam q = exam_id e
    ∧ (∀ x, x ∈ questions db → question_id x ≠ question_id q)
    ∧ Forall2 (created_from Cd (question_id q)) new choices_data
    ∧ ((∀ ch, ch ∈ choices db →
              ∃ x, x ∈ questions db ∧ choice_question ch = question_id x) →
       question_choices_all db' (question_id q) = new).
Proof.
  intros Hk He Hc Hi.
  destruct (create_appends (exam_id e) d choices_data db)
    as (q & new & Hcreate & Hid & Hexam & Hall).
  exists q, new, (with_choices (with_questions db (questions db ++ [q]))
                    (choices db ++ new)).
  assert (∀ x, x ∈ questions db → question_id x ≠ question_id q) as Hfresh.
  { intros x Hx. apply (next_id_fresh question_id) in Hx. lia. }
  split.
  { unfold QuestionListView_perform_create. view_unfold. rewrite Hk, He, Hc.
    by rewrite bool_decide_false by (by intros []). }
  do 5 (split; [done|]).
  intros Hfk. unfold question_choices_all. cbn [choices with_choices].
  rewrite filter_app.
  assert (filter (λ c0, choice_question c0 = question_id q) (choices db) = []) as ->.
  { apply filter_none. intros ch Hch Heq.
    destruct (Hfk ch Hch) as (x & Hx & Hcx). apply (Hfresh x Hx). congruence. }
  simpl. clear Hcreate. induction Hall as [|ch cf new' cfs [Hq _] _ IH]; [done|].
  rewrite filter_cons_True by done. by rewrite IH.
Qed.

(** X17.  A user who is not the instructor of the exam's course adds nothing
    through [QuestionListView]: the call raises and the store is left as
    it was. *)
Theorem question_create_denied
    (user : User) (pk exam_id_ : option Z) (d : QuestionData)
    (choices_data : list ChoiceFields) (db : DB) (k : Z) (e : Exam) (c : Course) :
  kwargs_pk_or_exam_id pk exam_id_ = Some k →
  objects_get exam_id (exams db) k = Some e →
  objects_get course_id (courses db) (course e) = Some c →
  instructor c ≠ user_id user →
  ∃ ex,
    QuestionListView_perform_create Qd Cd user pk exam_id_ d choices_data db
    = (Raise ex, db).
Proof.
  intros Hk He Hc Hi. eexists.
  unfold QuestionListView_perform_create. view_unfold. rewrite Hk, He, Hc.
  by rewrite bool_decide_true.
Qed.

End Questions.

Lemma question_create_stores_choices_witness :
  let Qd0 := {| dflt_question_text := ""; dflt_question_type := "single";
                dflt_marks := 1; dflt_order := 0 |} in
  let Cd0 := {| dflt_choice_text := ""; dflt_is_correct := false |} in
  let d := {| qd_question_text := Some "5 - 2"; qd_question_type := None;
              qd_marks := Some 3; qd_order := None |} in
  let items := [ {| cf_choice_text := Some "3"; cf_is_correct := Some true |};
                 {| cf_choice_text := Some "4"; cf_is_correct := None |} ] in
  ∃ q new db',
    QuestionListView_perform_create Qd0 Cd0 teacher1 (Some 0) (Some 1) d items db0
    = (Return q, db')
    ∧ questions db' = (questions db0 ++ [q])%list
    ∧ choices db' = (choices db0 ++ new)%list
    ∧ question_exam q = exam_id midterm
    ∧ (∀ x, x ∈ questions db0 → question_id x ≠ question_id q)
    ∧ Forall2 (created_from Cd0 (question_id q)) new items
    ∧ question_choices_all db' (question_id q) = new.
Proof.
  intros Qd0 Cd0 d items.
  destruct (question_create_stores_choices Qd0 Cd0 teacher1 (Some 0) (Some 1) d items
              db0 1 midterm algebra eq_refl eq_refl eq_refl eq_refl)
    as (q & new & db' & H1 & H2 & H3 & H4 & H5 & H6 & H7).
  exists q, new, db'. do 6 (split; [assumption|]).
  apply H7. intros ch Hch. unfold db0, with_attempts in Hch. cbn [choices] in Hch.
  repeat (apply elem_of_cons in Hch as [->|Hch];
          [first [ exists q1; split; [left|reflexivity]
                 | exists q2; split; [right; left|reflexivity] ] |]).
  by apply elem_of_nil in Hch.
Defined.

Lemma question_create_denied_witness :
  let Qd0 := {| dflt_question_text := ""; dflt_question_type := "single";
                dflt_marks := 1; dflt_order := 0 |} in
  let Cd0 := {| dflt_choice_text := ""; dflt_is_correct := false |} in
  let d := {| qd_question_text := Some "5 - 2"; qd_question_type := None;
              qd_marks := Some 3; qd_order := None |} in
  ∃ ex,
    QuestionListView_perform_create Qd0 Cd0 teacher2 (Some 1) None d [] db0
    = (Raise ex, db0).
Proof.
  intros Qd0 Cd0 d.
  apply (question_create_denied Qd0 Cd0 teacher2 (Some 1) None d [] db0 1
           midterm algebra); [reflexivity | reflexivity | reflexivity | by vm_compute].
Defined.


(** ** Updating a question *)

Lemma objects_get_None {R} (key : R → Z) (table : list R) (pk : Z) :
  objects_get key table pk = None → ∀ r, r ∈ table → key r ≠ pk.
Proof.
  unfold objects_get. intros Hf r Hr Hk.
  apply list_elem_of_In in Hr.
  pose proof (find_none _ _ Hf r Hr) as Hn. simpl in Hn.
  by rewrite bool_decide_true in Hn.
Qed.

(** Saving a row and looking its key up gives the row back. *)
Lemma save_row_lookup {R} (key : R → Z) (r : R) (table : list R) :
  objects_get key (save_row key r table) (key r) = Some r.
Proof.
  unfold save_row. destruct (objects_get key table (key r)) as [x|] eqn:Hg.
  - unfold objects_get in *. induction table as [|y l IH]; [done|].
    simpl in *. destruct (bool_decide (key y = key r)) eqn:Hy.
    + by rewrite bool_decide_true.
    + rewrite Hy. by apply IH.
  - apply objects_get_app_new. intros x Hx. by apply (objects_get_None _ _ _ Hg).
Qed.

Lemma save_row_length {R} (key : R → Z) (r : R) (table : list R) :
  is_Some (objects_get key table (key r)) →
  length (save_row key r table) = length table.
Proof. unfold save_row. intros [x ->]. apply length_fmap. Qed.

Lemma filter_filter_implied {A} (P Q : A → Prop)
    `{∀ x, Decision (P x)} `{∀ x, Decision (Q x)} (l : list A) :
  (∀ x, x ∈ l → P x → Q x) → filter P (filter Q l) = filter P l.
Proof.
  induction l as [|x l IH]; intros Himp; [done|].
  assert (filter P (filter Q l) = filter P l) as IH'
    by (apply IH; intros y Hy; apply Himp; by right).
  destruct (decide (Q x)) as [HQ|HQ].
  - rewrite (filter_cons_True Q) by done. rewrite !filter_cons, IH'. done.
  - rewrite (filter_cons_False Q) by done. rewrite IH'.
    rewrite filter_cons_False; [done|]. intros HP. apply HQ, Himp; [left|done].
Qed.

Lemma NoDup_fmap_eq {A B} (f : A → B) (l : list A) (x y : A) :
  NoDup (f <$> l) → x ∈ l → y ∈ l → f x = f y → x = y.
Proof.
  induction l as [|a l IH]; intros Hnd Hx Hy Heq.
  - by apply elem_of_nil in Hx.
  - rewrite fmap_cons in Hnd. apply NoDup_cons in Hnd as [Hnot Hnd].
    apply elem_of_cons in Hx as [->|Hx]; apply elem_of_cons in Hy as [->|Hy].
    + done.
    + exfalso. apply Hnot. rewrite Heq. by apply list_elem_of_fmap_2.
    + exfalso. apply Hnot. rewrite <- Heq. by apply list_elem_of_fmap_2.
    + by apply IH.
Qed.

Lemma NoDup_keys_separate (q : Z) (table : list Choice) :
  NoDup (choice_id <$> table) → keys_separate q table.
Proof.
  intros Hnd r r' Hr Hr' Hq Hq' Hid.
  assert (r = r') as -> by (by eapply NoDup_fmap_eq). done.
Qed.

Lemma other_choices_of (q q' : Z) (db : DB) :
  q' ≠ q →
  question_choices_all db q'
  = filter (λ c, choice_question c = q') (other_choices q (choices db)).
Proof.
  intros Hne. unfold question_choices_all, other_choices.
  symmetry. apply filter_filter_implied. intros x _ Hx. congruence.
Qed.

Lemma filter_all {A} (P : A → Prop) `{∀ x, Decision (P x)} (l : list A) :
  (∀ x, x ∈ l → P x) → filter P l = l.
Proof.
  induction l as [|x l IH]; intros Hall; [done|].
  rewrite filter_cons_True by (apply Hall; left).
  f_equal. apply IH. intros y Hy. apply Hall. by right.
Qed.

Section QuestionUpdate.

Variable Cd : ChoiceDefaults.

(** The first loop of [update]: the rows whose key is the key of an
    unlisted choice of the question are gone, the others stay. *)
Lemma for_each_delete (existing_ids : list Z) (old : list Choice) (db : DB) :
  for_each old
    (λ choice, if bool_decide (choice_id choice ∉ existing_ids)
               then Choice_delete choice else mret ()) db
  = (Return (),
     with_choices db
       (filter (λ r, choice_id r ∉
                       choice_id <$> filter (λ c, choice_id c ∉ existing_ids) old)
               (choices db))).
Proof.
  revert db. induction old as [|x l IH]; intros db.
  - rewrite for_each_nil. simpl.
    rewrite filter_all, with_choices_same; [done|].
    intros r _ Hin. by apply elem_of_nil in Hin.
  - rewrite for_each_cons. case_bool_decide as Hx.
    + unfold Choice_delete at 1. rewrite IH. cbn [choices with_choices].
      f_equal. unfold with_choices. cbn. f_equal.
      unfold delete_row. rewrite list_filter_filter.
      destruct (decide (choice_id x ∉ existing_ids)) as [_|?]; [|done].
      rewrite fmap_cons.
      apply list_filter_iff. intros r. rewrite not_elem_of_cons. tauto.
    + unfold mret, view_ret. rewrite IH. by rewrite filter_cons_False by tauto.
Qed.

Lemma update_or_create_without_id (instance : Question) (cd : ChoiceData) (db : DB) :
  cd_id cd = None →
  update_or_create Cd instance cd db
  = (Choice_objects_create Cd (question_id instance) (cd_fields cd);; mret ()) db.
Proof. intros Hid. unfold update_or_create. by rewrite Hid. Qed.

Lemma existing_ids_without_id (cds : list ChoiceData) :
  Forall (λ cd, cd_id cd = None) cds → existing_ids_of cds = [].
Proof.
  unfold existing_ids_of. induction 1 as [|cd l Hcd _ IH]; [done|].
  simpl. rewrite Hcd. exact IH.
Qed.

(** What [update] does when no item carries a key, which is what the
    nested [ChoiceSerializer] hands over (its [id] is read-only): every
    choice the question had is deleted and one new choice per item is
    stored; afterwards the question's choices are exactly these. *)
Lemma update_without_ids (instance : Question) (d : QuestionData)
    (cds : list ChoiceData) (db : DB) :
  Forall (λ cd, cd_id cd = None) cds →
  ∃ db' new,
    QuestionCreateSerializer_update Cd instance d (Some cds) db
    = (Return (setattrs instance d), db')
    ∧ question_choices_all db' (question_id instance) = new
    ∧ Forall2 (λ c cd, created_from Cd (question_id instance) c (cd_fields cd)) new cds.
Proof.
  intros Hnone. unfold QuestionCreateSerializer_update.
  rewrite view_bind_eq. unfold Question_save at 1.
  set (db1 := with_questions db _).
  set (q := question_id instance).
  change (question_id (setattrs instance d)) with q.
  rewrite view_bind_eq. unfold query at 1. rewrite view_bind_eq.
  rewrite for_each_delete, existing_ids_without_id by done.
  set (db2 := with_choices db1 _).
  rewrite view_bind_eq.
  rewrite (for_each_ext _ (λ cd, Choice_objects_create Cd q (cd_fields cd);; mret ()))
    by (intros cd db3 Hcd; apply update_or_create_without_id;
        by apply (proj1 (Forall_forall _ _) Hnone)).
  destruct (for_each_create Cd cd_fields q cds db2) as (new & -> & Hall).
  eexists _, new. split; [reflexivity|]. split; [|done].
  unfold question_choices_all. cbn [choices with_choices]. rewrite filter_app.
  assert (filter (λ c, choice_question c = q) (choices db2) = []) as ->.
  { apply filter_none. intros r Hr Hq. unfold db2 in Hr. cbn [choices with_choices] in Hr.
    apply list_elem_of_filter in Hr as [Hnot Hr]. apply Hnot.
    apply list_elem_of_fmap_2, list_elem_of_filter. split.
    - intros Hin. by apply elem_of_nil in Hin.
    - unfold question_choices_all. by apply list_elem_of_filter. }
  simpl. clear -Hall. induction Hall as [|c cd new' cds' [Hq _] _ IH]; [done|].
  rewrite filter_cons_True by done. by rewrite IH.
Qed.

(** One turn of the second loop leaves the choices of other questions
    alone, and keeps their keys apart from those of the question. *)
Lemma update_or_create_frame (instance : Question) (cd : ChoiceData)
    (db db' : DB) (o : Outcome unit) :
  keys_separate (question_id instance) (choices db) →
  update_or_create Cd instance cd db = (o, db') →
  other_choices (question_id instance) (choices db')
  = other_choices (question_id instance) (choices db)
  ∧ keys_separate (question_id instance) (choices db').
Proof.
  set (q := question_id instance). intros Hsep.
  unfold update_or_create. destruct (cd_id cd) as [p|].
  - rewrite view_bind_eq. unfold Choice_objects_get.
    destruct (List.find _ (choices db)) as [c|] eqn:Hfind; [|by intros [= <- <-]].
    apply find_some in Hfind as [Hc Hkey]. apply list_elem_of_In in Hc.
    apply bool_decide_eq_true in Hkey as [Hcid Hcq].
    unfold Choice_save. intros [= <- <-]. cbn [choices with_choices].
    set (c' := {| choice_id := choice_id c; choice_question := choice_question c;
                  choice_text := _; is_correct := _ |}).
    unfold save_row.
    destruct (objects_get choice_id (choices db) (choice_id c')) as [x|] eqn:Hg.
    2: { exfalso. by apply (objects_get_None _ _ _ Hg c Hc). }
    set (f := λ x : Choice, if bool_decide (choice_id x = choice_id c') then c' else x).
    assert (∀ x, x ∈ choices db → choice_question x ≠ q → f x = x) as Hfix.
    { intros y Hy Hq. unfold f. case_bool_decide as Hk; [|done].
      exfalso. by apply (Hsep c y Hc Hy Hcq Hq). }
    assert (∀ x, choice_id (f x) = choice_id x) as Hfid.
    { intros y. unfold f. by case_bool_decide. }
    assert (∀ x, choice_question x = q → choice_question (f x) = q) as Hfq.
    { intros y Hy. unfold f. by case_bool_decide. }
    split.
    + unfold other_choices. clear Hg Hsep Hc.
      induction (choices db) as [|y l IH]; [done|]. rewrite fmap_cons.
      assert (filter (λ r, choice_question r ≠ q) (f <$> l)
              = filter (λ r, choice_question r ≠ q) l) as IH'
        by (apply IH; intros z Hz; apply Hfix; by right).
      destruct (decide (choice_question y = q)) as [Hy|Hy].
      * rewrite !filter_cons_False by (intros Hn; apply Hn; auto). exact IH'.
      * rewrite (Hfix y) by (done || left). by rewrite !filter_cons_True, IH'.
    + intros r r' Hr Hr' Hrq Hr'q.
      apply list_elem_of_fmap in Hr as (y & -> & Hy).
      apply list_elem_of_fmap in Hr' as (y' & -> & Hy').
      rewrite !Hfid.
      assert (choice_question y' ≠ q) as Hy'q by (intros Hn; by apply Hr'q, Hfq).
      destruct (decide (choice_question y = q)) as [Hyq|Hyq]; [by apply Hsep|].
      assert (choice_id y = choice_id c') as Hk.
      { destruct (decide (choice_id y = choice_id c')) as [|Hn]; [done|].
        exfalso. apply Hyq. unfold f in Hrq. by rewrite bool_decide_false in Hrq. }
      rewrite Hk. intros Heq. by apply (Hsep c y' Hc Hy' Hcq Hy'q).
  - rewrite view_bind_eq. unfold Choice_objects_create at 1.
    intros [= <- <-]. cbn [choices with_choices].
    match goal with
    | |- context [(choices db ++ [?x])%list] => set (c' := x)
    end.
    split.
    + unfold other_choices. rewrite filter_app, filter_cons_False, filter_nil, app_nil_r;
        [done|]. intros Hn. by apply Hn.
    + intros r r' Hr Hr' Hrq Hr'q.
      apply elem_of_app in Hr' as [Hr'|Hr'].
      2: { apply list_elem_of_singleton in Hr' as ->. by exfalso. }
      apply elem_of_app in Hr as [Hr|Hr]; [by apply Hsep|].
      apply list_elem_of_singleton in Hr as ->.
      apply (next_id_fresh choice_id) in Hr'. unfold c'. cbn [choice_id]. lia.
Qed.

Lemma for_each_update_frame (instance : Question) (cds : list ChoiceData)
    (db db' : DB) (o : Outcome unit) :
  keys_separate (question_id instance) (choices db) →
  for_each cds (update_or_create Cd instance) db = (o, db') →
  other_choices (question_id instance) (choices db')
  = other_choices (question_id instance) (choices db).
Proof.
  revert db. induction cds as [|cd l IH]; intros db Hsep.
  - rewrite for_each_nil. by intros [= <- <-].
  - rewrite for_each_cons.
    destruct (update_or_create Cd instance cd db) as [[[]|ex] db1] eqn:Hstep.
    + destruct (update_or_create_frame _ _ _ _ _ Hsep Hstep) as [Ho Hs].
      intros Hrest. rewrite <- Ho. by apply IH.
    + destruct (update_or_create_frame _ _ _ _ _ Hsep Hstep) as [Ho Hs].
      by intros [= <- <-].
Qed.

(** [update] never touches the choices of other questions, whether it
    returns or raises, on a table whose keys are distinct. *)
Lemma update_frame (instance : Question) (d : QuestionData)
    (choices_data : option (list ChoiceData)) (db db' : DB) (o : Outcome Question)
    (q' : Z) :
  NoDup (choice_id <$> choices db) →
  QuestionCreateSerializer_update Cd instance d choices_data db = (o, db') →
  q' ≠ question_id instance →
  question_choices_all db' q' = question_choices_all db q'.
Proof.
  intros Hnd Hup Hq'. set (q := question_id instance) in *.
  rewrite !(other_choices_of q q') by done. f_equal.
  revert Hup. unfold QuestionCreateSerializer_update.
  rewrite view_bind_eq. unfold Question_save at 1.
  set (db1 := with_questions db _).
  change (question_id (setattrs instance d)) with q.
  destruct choices_data as [cds|]; [|by intros [= <- <-]].
  rewrite view_bind_eq. unfold query at 1. rewrite view_bind_eq.
  rewrite for_each_delete. set (db2 := with_choices db1 _).
  assert (∀ r, r ∈ choices db2 → r ∈ choices db) as Hsub.
  { intros r Hr. unfold db2 in Hr. cbn [choices with_choices] in Hr.
    by apply list_elem_of_filter in Hr as [_ Hr]. }
  pose proof (NoDup_keys_separate q _ Hnd) as Hsep.
  assert (keys_separate q (choices db2)) as Hsep2.
  { intros r r' Hr Hr'. apply Hsep; by apply Hsub. }
  assert (other_choices q (choices db2) = other_choices q (choices db)) as Ho2.
  { unfold db2. cbn [choices with_choices db1 with_questions]. unfold other_choices.
    apply filter_filter_implied. intros r Hr Hrq Hin.
    apply list_elem_of_fmap in Hin as (c & Hid & Hc).
    apply list_elem_of_filter in Hc as [_ Hc]. unfold question_choices_all in Hc.
    cbn [choices with_questions] in Hc. apply list_elem_of_filter in Hc as [Hcq Hc].
    by apply (Hsep c r Hc Hr Hcq Hrq). }
  rewrite view_bind_eq.
  destruct (for_each cds (update_or_create Cd (setattrs instance d)) db2)
    as [[[]|ex] db3] eqn:Hloop.
  - intros [= <- <-]. rewrite <- Ho2.
    by apply (for_each_update_frame (setattrs instance d) cds db2 db3 (Return ())).
  - intros [= <- <-]. rewrite <- Ho2.
    by apply (for_each_update_frame (setattrs instance d) cds db2 db3 (Raise ex)).
Qed.

(** A turn of the second loop on an item with a key: it raises
    [DoesNotExist] unless the question has a choice with that key, and
    it gives the question no choice under a key it had none under. *)
Lemma update_or_create_with_id (instance : Question) (cd : ChoiceData) (p : positive)
    (db db' : DB) (o : Outcome unit) :
  cd_id cd = Some p →
  update_or_create Cd instance cd db = (o, db') →
  (∀ k, has_choice (question_id instance) (choices db') k →
        has_choice (question_id instance) (choices db) k)
  ∧ (o = Raise (DoesNotExist "Choice")
     ∨ (o = Return () ∧ has_choice (question_id instance) (choices db) (Z.pos p))).
Proof.
  set (q := question_id instance). intros Hid.
  unfold update_or_create. rewrite Hid, view_bind_eq. unfold Choice_objects_get.
  destruct (List.find _ (choices db)) as [c|] eqn:Hfind.
  2: { intros [= <- <-]. split; [done|by left]. }
  apply find_some in Hfind as [Hc Hkey]. apply list_elem_of_In in Hc.
  apply bool_decide_eq_true in Hkey as [Hcid Hcq].
  unfold Choice_save. intros [= <- <-]. cbn [choices with_choices].
  split; [|right; split; [done|by exists c]].
  intros k (r & Hr & Hrq & Hrk). unfold save_row in Hr.
  match type of Hr with
  | context [objects_get choice_id (choices db) ?key] =>
      destruct (objects_get choice_id (choices db) key) as [x|] eqn:Hg
  end.
  2: { exfalso. by apply (objects_get_None _ _ _ Hg c Hc). }
  apply list_elem_of_fmap in Hr as (y & -> & Hy). cbn [choice_id] in *.
  case_bool_decide as Hk.
  - exists c. cbn [choice_id] in Hrk. by subst k.
  - by exists y.
Qed.

Lemma for_each_unknown_id (instance : Question) (cds : list ChoiceData)
    (cd : ChoiceData) (p : positive) (db : DB) :
  Forall (λ cd, is_Some (cd_id cd)) cds →
  cd ∈ cds → cd_id cd = Some p →
  ¬ has_choice (question_id instance) (choices db) (Z.pos p) →
  fst (for_each cds (update_or_create Cd instance) db) = Raise (DoesNotExist "Choice").
Proof.
  intros Hall Hcd Hp. revert db.
  induction Hall as [|cd1 l [p1 Hp1] Hall IH]; intros db Hnone.
  - by apply elem_of_nil in Hcd.
  - rewrite for_each_cons.
    destruct (update_or_create Cd instance cd1 db) as [o db1] eqn:Hstep.
    destruct (update_or_create_with_id _ _ _ _ _ _ Hp1 Hstep) as [Hmono [->|[-> Hhas]]];
      [done|].
    apply elem_of_cons in Hcd as [->|Hcd].
    + exfalso. apply Hnone. congruence.
    + apply IH; [done|]. intros Hn. by apply Hnone, Hmono.
Qed.

(** When every item carries a key and one of the keys is not the key of
    a choice of the question, [update] raises [DoesNotExist]. *)
Lemma update_unknown_id (instance : Question) (d : QuestionData)
    (cds : list ChoiceData) (cd : ChoiceData) (p : positive) (db : DB) :
  Forall (λ cd, is_Some (cd_id cd)) cds →
  cd ∈ cds → cd_id cd = Some p →
  ¬ has_choice (question_id instance) (choices db) (Z.pos p) →
  fst (QuestionCreateSerializer_update Cd instance d (Some cds) db)
  = Raise (DoesNotExist "Choice").
Proof.
  intros Hall Hcd Hp Hnone. unfold QuestionCreateSerializer_update.
  rewrite view_bind_eq. unfold Question_save at 1.
  set (db1 := with_questions db _).
  rewrite view_bind_eq. unfold query at 1. rewrite view_bind_eq.
  rewrite for_each_delete. set (db2 := with_choices db1 _).
  rewrite view_bind_eq.
  assert (¬ has_choice (question_id (setattrs instance d)) (choices db2) (Z.pos p))
    as Hnone2.
  { intros (r & Hr & Hrq & Hrk). apply Hnone. exists r. split; [|done].
    unfold db2 in Hr. cbn [choices with_choices] in Hr.
    by apply list_elem_of_filter in Hr as [_ Hr]. }
  pose proof (for_each_unknown_id (setattrs instance d) cds cd p db2 Hall Hcd Hp Hnone2)
    as Hloop.
  destruct (for_each cds (update_or_create Cd (setattrs instance d)) db2)
    as [[[]|ex] db3]; simpl in *; congruence.
Qed.

(** Without a ['choices'] entry [update] writes the question only. *)
Lemma update_without_choices (instance : Question) (d : QuestionData) (db : DB) :
  ∃ db',
    QuestionCreateSerializer_update Cd instance d None db
    = (Return (setattrs instance d), db')
    ∧ choices db' = choices db
    ∧ objects_get question_id (questions db') (question_id instance)
      = Some (setattrs instance d)
    ∧ (is_Some (objects_get question_id (questions db) (question_id instance)) →
       length (questions db') = length (questions db)).
Proof.
  eexists. split; [reflexivity|]. cbn [choices questions with_questions].
  split; [done|]. split.
  - apply (save_row_lookup question_id (setattrs instance d)).
  - apply (save_row_length question_id (setattrs instance d)).
Qed.

End QuestionUpdate.

(** ** The question views *)

Section QuestionDetail.

Variable Cd : ChoiceDefaults.
Variable field_errors : Method → QuestionData → option (list ChoiceFields) → option string.

Lemma detail_update_accepted (method : Method) (user : User) (pk : Z)
    (d : QuestionData) (choices_data : option (list ChoiceFields)) (db : DB)
    (instance : Question) :
  objects_get question_id (questions db) pk = Some instance →
  (method = PUT → is_Some choices_data) →
  field_errors method d choices_data = None →
  QuestionDetailView_update Cd field_errors method user pk d choices_data db
  = QuestionCreateSerializer_update Cd instance d
      (validated_choices choices_data) db.
Proof.
  intros Hq Hput Hok. unfold QuestionDetailView_update.
  rewrite view_bind_eq. unfold get_object_or_404. rewrite Hq, Hok.
  destruct method, choices_data as [items|]; try done.
  by destruct (Hput eq_refl).
Qed.

(** A request that is not accepted writes nothing. *)
Lemma detail_update_refused (method : Method) (user : User) (pk : Z)
    (d : QuestionData) (choices_data : option (list ChoiceFields)) (db : DB) :
  (method = PUT ∧ choices_data = None) ∨ is_Some (field_errors method d choices_data)
  ∨ objects_get question_id (questions db) pk = None →
  ∃ ex, QuestionDetailView_update Cd field_errors method user pk d choices_data db
        = (Raise ex, db).
Proof.
  intros Hcase. unfold QuestionDetailView_update.
  rewrite view_bind_eq. unfold get_object_or_404.
  destruct (objects_get question_id (questions db) pk) as [instance|]; [|by eauto].
  destruct Hcase as [[-> ->]|[[detail Hd]|?]]; [by eauto| |done].
  rewrite Hd. destruct method, choices_data; by eauto.
Qed.

End QuestionDetail.

(** X18.  [QuestionDetailView], an accepted PUT or PATCH with a
    ['choices'] list, for any user: every choice the question had is
    deleted, and afterwards its choices are one new choice per submitted
    item, in order, with the item's values. *)
Theorem question_update_replaces_choices
    (Cd : ChoiceDefaults)
    (field_errors : Method → QuestionData → option (list ChoiceFields) → option string)
    (method : Method) (user : User) (pk : Z) (d : QuestionData)
    (items : list ChoiceFields) (db : DB) (instance : Question) :
  objects_get question_id (questions db) pk = Some instance →
  field_errors method d (Some items) = None →
  ∃ db' new,
    QuestionDetailView_update Cd field_errors method user pk d (Some items) db
    = (Return (setattrs instance d), db')
    ∧ question_choices_all db' pk = new
    ∧ Forall2 (created_from Cd pk) new items.
Proof.
  intros Hq Hok.
  rewrite (detail_update_accepted Cd field_errors _ _ _ _ _ _ _ Hq) by (done || eauto).
  apply objects_get_key in Hq as [<- _]. simpl.
  destruct (update_without_ids Cd instance d (validated_choice <$> items) db)
    as (db' & new & Hup & Hnew & Hall).
  { apply Forall_fmap, Forall_forall. by intros cf _. }
  exists db', new. split; [done|]. split; [done|].
  apply Forall2_fmap_r in Hall.
  assert (cd_fields <$> (validated_choice <$> items) = items) as Heq
    by (clear; induction items as [|cf l IH]; [done|]; simpl; by f_equal).
  by rewrite Heq in Hall.
Qed.

Lemma question_update_replaces_choices_witness :
  let Cd0 := {| dflt_choice_text := ""; dflt_is_correct := false |} in
  let accept_all := λ (_ : Method) (_ : QuestionData) (_ : option (list ChoiceFields)),
                      @None string in
  let d := {| qd_question_text := Some "2 + 2"; qd_question_type := Some "single";
              qd_marks := Some 7; qd_order := Some 1 |} in
  let items := [ {| cf_choice_text := Some "four"; cf_is_correct := Some true |} ] in
  ∃ db' new,
    QuestionDetailView_update Cd0 accept_all PUT bob 1 d (Some items) db0
    = (Return (setattrs q1 d), db')
    ∧ question_choices_all db' 1 = new
    ∧ Forall2 (created_from Cd0 1) new items
    ∧ length new = 1%nat ∧ marks (setattrs q1 d) = 7.
Proof.
  intros Cd0 accept_all d items.
  destruct (question_update_replaces_choices Cd0 accept_all PUT bob 1 d items db0 q1
              eq_refl eq_refl) as (db' & new & Hup & Hnew & Hall).
  exists db', new. split; [exact Hup|]. split; [exact Hnew|]. split; [exact Hall|].
  split; [|reflexivity]. by rewrite (Forall2_length _ _ _ Hall).
Defined.

(** X19.  [QuestionDetailView], PUT or PATCH: whatever the payload and the
    outcome, the choices of every other question are as before, on a
    choices table whose keys are distinct. *)
Theorem question_update_keeps_other_choices
    (Cd : ChoiceDefaults)
    (field_errors : Method → QuestionData → option (list ChoiceFields) → option string)
    (method : Method) (user : User) (pk : Z) (d : QuestionData)
    (choices_data : option (list ChoiceFields)) (db db' : DB) (o : Outcome Question)
    (q' : Z) :
  NoDup (choice_id <$> choices db) →
  QuestionDetailView_update Cd field_errors method user pk d choices_data db = (o, db') →
  q' ≠ pk →
  question_choices_all db' q' = question_choices_all db q'.
Proof.
  intros Hnd Hup Hq'.
  destruct (objects_get question_id (questions db) pk) as [instance|] eqn:Hq.
  2: { destruct (detail_update_refused Cd field_errors method user pk d choices_data db)
         as [ex Hex]; [by auto|]. rewrite Hex in Hup. by injection Hup as <- <-. }
  destruct (field_errors method d choices_data) as [detail|] eqn:Hfe.
  { destruct (detail_update_refused Cd field_errors method user pk d choices_data db)
      as [ex Hex]; [rewrite Hfe; by eauto|]. rewrite Hex in Hup. by injection Hup as <- <-. }
  assert ((method = PUT ∧ choices_data = None) ∨ (method = PUT → is_Some choices_data))
    as [Hput|Hput].
  { destruct method; [|by right]. destruct choices_data; [right; by eauto|by left]. }
  { destruct (detail_update_refused Cd field_errors method user pk d choices_data db)
      as [ex Hex]; [by auto|]. rewrite Hex in Hup. by injection Hup as <- <-. }
  rewrite (detail_update_accepted Cd field_errors _ _ _ _ _ _ _ Hq Hput Hfe) in Hup.
  apply objects_get_key in Hq as [<- _]. by eapply update_frame.
Qed.

Lemma question_update_keeps_other_choices_witness :
  let Cd0 := {| dflt_choice_text := ""; dflt_is_correct := false |} in
  let accept_all := λ (_ : Method) (_ : QuestionData) (_ : option (list ChoiceFields)),
                      @None string in
  let d := {| qd_question_text := None; qd_question_type := None;
              qd_marks := None; qd_order := None |} in
  let items := [ {| cf_choice_text := Some "five"; cf_is_correct := None |};
                 {| cf_choice_text := Some "four"; cf_is_correct := Some true |} ] in
  NoDup (choice_id <$> choices db0)
  ∧ (∃ q, fst (QuestionDetailView_update Cd0 accept_all PATCH bob 1 d (Some items) db0)
          = Return q)
  ∧ question_choices_all
      (snd (QuestionDetailView_update Cd0 accept_all PATCH bob 1 d (Some items) db0)) 2
    = [c21; c22].
Proof.
  intros Cd0 accept_all d items.
  assert (NoDup (choice_id <$> choices db0)) as Hnd
    by (apply (bool_decide_unpack _); by vm_compute).
  split; [exact Hnd|]. split; [eexists; by vm_compute|].
  destruct (QuestionDetailView_update Cd0 accept_all PATCH bob 1 d (Some items) db0)
    as [o db'] eqn:Hup.
  exact (question_update_keeps_other_choices Cd0 accept_all PATCH bob 1 d (Some items)
           db0 db' o 2 Hnd Hup ltac:(done)).
Defined.

(** X20.  [QuestionCreateSerializer.update] called with a ['choices'] list
    in which every item carries an id: if one of the ids is not the id of
    a choice of the question, the call raises [DoesNotExist].  (Through
    [QuestionDetailView] no item carries an id, so this is the function
    called on its own.) *)
Theorem serializer_update_unknown_key
    (Cd : ChoiceDefaults) (instance : Question) (d : QuestionData)
    (cds : list ChoiceData) (cd : ChoiceData) (p : positive) (db : DB) :
  Forall (λ cd, is_Some (cd_id cd)) cds →
  cd ∈ cds → cd_id cd = Some p →
  ¬ has_choice (question_id instance) (choices db) (Z.pos p) →
  fst (QuestionCreateSerializer_update Cd instance d (Some cds) db)
  = Raise (DoesNotExist "Choice").
Proof. apply update_unknown_id. Qed.

Lemma serializer_update_unknown_key_witness :
  let Cd0 := {| dflt_choice_text := ""; dflt_is_correct := false |} in
  let d := {| qd_question_text := None; qd_question_type := None;
              qd_marks := None; qd_order := None |} in
  let cd := {| cd_id := Some 3%positive;
               cd_fields := {| cf_choice_text := Some "six"; cf_is_correct := None |} |} in
  ¬ has_choice 1 (choices db0) 3
  ∧ fst (QuestionCreateSerializer_update Cd0 q1 d (Some [cd]) db0)
    = Raise (DoesNotExist "Choice").
Proof.
  intros Cd0 d cd.
  assert (¬ has_choice 1 (choices db0) 3) as Hnone.
  { intros (r & Hr & Hq & Hk). unfold db0, with_attempts in Hr. cbn [choices] in Hr.
    repeat (apply elem_of_cons in Hr as [->|Hr]; [by vm_compute in Hq, Hk|]).
    by apply elem_of_nil in Hr. }
  split; [exact Hnone|].
  apply (serializer_update_unknown_key Cd0 q1 d [cd] cd 3%positive db0);
    [by repeat constructor | left | reflexivity | exact Hnone].
Defined.

Lemma save_row_others {R} (key : R → Z) (r : R) (table : list R) (x : R) :
  x ∈ table → key x ≠ key r → x ∈ save_row key r table.
Proof.
  intros Hx Hne. unfold save_row.
  destruct (objects_get key table (key r)); [|apply elem_of_app; by left].
  apply list_elem_of_fmap. exists x. by rewrite bool_decide_false.
Qed.

(** X21.  [QuestionDetailView] without a ['choices'] entry.  A PUT is
    refused with [ValidationError] and writes nothing.  An accepted
    PATCH rewrites the question only: each submitted value is set, each
    absent one keeps its stored value, key and exam are kept; the new
    row is what a lookup by the key returns, the other questions are
    still stored, and no question or choice is added or removed. *)
Theorem question_update_without_choices
    (Cd : ChoiceDefaults)
    (field_errors : Method → QuestionData → option (list ChoiceFields) → option string)
    (user : User) (pk : Z) (d : QuestionData) (db : DB) (instance : Question) :
  objects_get question_id (questions db) pk = Some instance →
  (∃ detail,
     QuestionDetailView_update Cd field_errors PUT user pk d None db
     = (Raise (ValidationError detail), db))
  ∧ (field_errors PATCH d None = None →
     ∃ q db',
       QuestionDetailView_update Cd field_errors PATCH user pk d None db = (Return q, db')
       ∧ choices db' = choices db
       ∧ length (questions db') = length (questions db)
       ∧ objects_get question_id (questions db') pk = Some q
       ∧ (∀ x, x ∈ questions db → question_id x ≠ pk → x ∈ questions db')
       ∧ question_id q = pk
       ∧ question_exam q = question_exam instance
       ∧ question_text q = default (question_text instance) (qd_question_text d)
       ∧ question_type q = default (question_type instance) (qd_question_type d)
       ∧ marks q = default (marks instance) (qd_marks d)
       ∧ order q = default (order instance) (qd_order d)).
Proof.
  intros Hq. split.
  - exists "This field is required.". unfold QuestionDetailView_update.
    rewrite view_bind_eq. unfold get_object_or_404. by rewrite Hq.
  - intros Hok.
    rewrite (detail_update_accepted Cd field_errors _ _ _ _ _ _ _ Hq) by done.
    destruct (update_without_choices Cd instance d db) as (db' & Hup & Hch & Hget & Hlen).
    apply objects_get_key in Hq as Hpk. destruct Hpk as [Hpk _].
    exists (setattrs instance d), db'. split; [done|]. split; [done|]. split.
    { apply Hlen. rewrite Hpk. by rewrite Hq. }
    split; [by rewrite <- Hpk|]. split; [|by repeat split].
    intros x Hx Hne. simpl in Hup. injection Hup as <-. cbn [questions with_questions].
    apply save_row_others; [done|]. cbn [question_id setattrs]. congruence.
Qed.

Lemma question_update_without_choices_witness :
  let Cd0 := {| dflt_choice_text := ""; dflt_is_correct := false |} in
  let accept_all := λ (_ : Method) (_ : QuestionData) (_ : option (list ChoiceFields)),
                      @None string in
  let d := {| qd_question_text := Some "2 + 3"; qd_question_type := None;
              qd_marks := Some 6; qd_order := None |} in
  (∃ detail, QuestionDetailView_update Cd0 accept_all PUT alice 1 d None db0
             = (Raise (ValidationError detail), db0))
  ∧ ∃ q db',
      QuestionDetailView_update Cd0 accept_all PATCH alice 1 d None db0 = (Return q, db')
      ∧ choices db' = choices db0
      ∧ objects_get question_id (questions db') 1 = Some q
      ∧ q2 ∈ questions db'
      ∧ question_text q = "2 + 3" ∧ question_type q = "single"
      ∧ marks q = 6 ∧ order q = 1.
Proof.
  intros Cd0 accept_all d.
  destruct (question_update_without_choices Cd0 accept_all alice 1 d db0 q1 eq_refl)
    as [Hput Hpatch].
  split; [exact Hput|].
  destruct (Hpatch eq_refl)
    as (q & db' & Hup & Hch & _ & Hget & Hothers & _ & _ & Ht & Hty & Hm & Ho).
  exists q, db'. split; [exact Hup|]. split; [exact Hch|]. split; [exact Hget|].
  split; [apply Hothers; [vm_compute; right; left | by vm_compute]|].
  by rewrite Ht, Hty, Hm, Ho.
Defined.

(** X22.  [QuestionListView] lists, to whoever asks, the questions of the
    exam named in the URL, each with its choices and their [is_correct]
    flags. *)
Theorem question_list_exposes_is_correct
    (pk exam_id_ : option Z) (k : Z) (db : DB) (q : Question) (ch : Choice) :
  kwargs_pk_or_exam_id pk exam_id_ = Some k →
  q ∈ questions db → question_exam q = k →
  ch ∈ choices db → choice_question ch = question_id q →
  ∃ items jq cs jc,
    QuestionListView_list pk exam_id_ db = (Return items, db)
    ∧ jq ∈ items
    ∧ dict_get "id" jq = Some (NInt (question_id q))
    ∧ dict_get "choices" jq = Some (NList cs) ∧ jc ∈ cs
    ∧ dict_get "id" jc = Some (NInt (choice_id ch))
    ∧ dict_get "is_correct" jc = Some (NBool (is_correct ch)).
Proof.
  intros Hk Hq Hqe Hch Hcq.
  exists (QuestionSerializer db <$> QuestionListView_get_queryset false pk exam_id_ db),
    (QuestionSerializer db q),
    (ChoiceSerializer <$> question_choices_all db (question_id q)),
    (ChoiceSerializer ch).
  split; [reflexivity|]. split.
  { apply list_elem_of_fmap_2. unfold QuestionListView_get_queryset. rewrite Hk.
    by apply list_elem_of_filter. }
  split; [reflexivity|]. split; [reflexivity|]. split.
  { apply list_elem_of_fmap_2. unfold question_choices_all.
    by apply list_elem_of_filter. }
  split; reflexivity.
Qed.

Lemma question_list_exposes_is_correct_witness :
  ∃ items jq cs jc,
    QuestionListView_list None (Some 1) db0 = (Return items, db0)
    ∧ jq ∈ items
    ∧ dict_get "id" jq = Some (NInt 2)
    ∧ dict_get "choices" jq = Some (NList cs) ∧ jc ∈ cs
    ∧ dict_get "id" jc = Some (NInt 4)
    ∧ dict_get "is_correct" jc = Some (NBool true).
Proof.
  apply (question_list_exposes_is_correct None (Some 1) 1 db0 q2 c22);
    [reflexivity | vm_compute; right; left | reflexivity
    | vm_compute; do 3 right; left | reflexivity].
Defined.

(** ** The submission view, again *)

(** X3.  Every way [ExamSubmissionView.create] can end: a 403 response,
    a 400 response (only to the owner of an attempt already completed),
    or an exception, which is the missing attempt, a [ValidationError]
    or the [NotImplementedError] of [serializer.save()]; it never
    answers 201 and never changes the store. *)
Theorem submission_outcomes (user : User) (pk : Z) (payload : list Answer) (db : DB) :
  snd (ExamSubmissionView.create user pk payload db) = db
  ∧ match fst (ExamSubmissionView.create user pk payload db) with
    | Return r =>
        (status r = HTTP_403_FORBIDDEN ∨ status r = HTTP_400_BAD_REQUEST)
        ∧ ∃ a, objects_get attempt_id (attempts db) pk = Some a
               ∧ (status r = HTTP_400_BAD_REQUEST →
                  student a = user_id user ∧ is_completed a = true)
    | Raise ex =>
        ex = DoesNotExist "ExamAttempt"
        ∨ (∃ detail, ex = ValidationError detail)
        ∨ ex = NotImplementedError "`create()` must be implemented."
    end.
Proof.
  destruct (objects_get attempt_id (attempts db) pk) as [a|] eqn:Hget.
  - destruct (decide (student a = user_id user)) as [Ho|Ho].
    + destruct (is_completed a) eqn:Hc.
      * rewrite (create_completed _ _ _ payload _ Hget Ho Hc). simpl.
        split; [done|]. split; [by right|]. by exists a.
      * destruct (decide (refused_questions db payload = [])) as [Hr|Hr].
        2: { rewrite (create_refused _ _ _ _ _ Hget Ho Hc Hr). simpl. eauto. }
        destruct (decide (answered_questions payload = exam_questions db a)) as [Hs|Hs].
        -- rewrite (create_valid _ _ _ _ _ Hget Ho Hc Hr Hs). simpl. auto.
        -- rewrite (create_invalid _ _ _ _ _ Hget Ho Hc Hr Hs). simpl. eauto.
    + rewrite (create_not_owner _ _ _ payload _ Hget Ho). simpl.
      split; [done|]. split; [by left|]. exists a. split; [done|]. by intros [=].
  - unfold ExamSubmissionView.create. view_unfold. rewrite Hget. simpl. auto.
Qed.
